(** * WAHA gateway: upstream client, controllers and routes

    A shallow embedding of the request/response translation layer of the
    gateway ([app/utils/waha_client.py], [app/controllers/*.py],
    [app/routes/health.py], [app/routes/messages.py],
    [app/schemas/whatsapp.py]) together with the properties its
    specification states about it. *)

From Stdlib Require Import ZArith List Lia.
From Stdlib.Strings Require Import Byte Ascii String.
From stdpp Require Import base option list gmap strings.

Set Warnings "-register-all".
Local Open Scope Z_scope.

(** ** Python values *)

(** A Python [str] is a sequence of Unicode code points, a Python [bytes]
    a sequence of octets. *)
Abbreviation str := (list N).
Abbreviation bytes := (list byte).

(** String literals of the source, as code-point lists. *)
Definition py (s : string) : str :=
  (fun a => N_of_ascii a) <$> list_ascii_of_string s.

(** Byte literals of the source ([b"..."]). *)
Definition pyb (s : string) : bytes := list_byte_of_string s.

(** [datetime] objects; only their identity matters here. *)
Definition datetime := Z.

(** The values a decoded JSON document or a keyword argument can hold. *)
Inductive Value :=
| VNone
| VBool (b : bool)
| VInt (z : Z)
| VFloat (bits : Z)
| VStr (s : str)
| VBytes (b : bytes)
| VDatetime (t : datetime)
| VList (l : list Value)
| VDict (d : gmap str Value).

(** Python truthiness of the argument types [send_file] tests. *)
Definition truthy_str (s : str) : bool :=
  match s with [] => false | _ => true end.

Definition truthy_bytes (b : bytes) : bool :=
  match b with [] => false | _ => true end.

(** [x or d] for an optional string. *)
Definition str_or (x : option str) (d : str) : str :=
  match x with
  | Some s => if truthy_str s then s else d
  | None => d
  end.

(** ** [str.upper] *)

(** ASCII letters are mapped here; the full upper-case mapping of the other
    code points comes from the Unicode database of the interpreter, which
    [Section] users supply as [unicode_upper]. *)
Definition ascii_upper (c : N) : N :=
  if ((97 <=? c) && (c <=? 122))%N then (c - 32)%N else c.

Definition upper_with (unicode_upper : N -> list N) (s : str) : str :=
  c ← s; if (c <? 128)%N then [ascii_upper c] else unicode_upper c.

(** ** [bytes.decode("utf-8")] *)

Definition byte_val (b : byte) : Z := Z.of_N (Byte.to_N b).

Definition is_cont (b : byte) : bool :=
  (128 <=? byte_val b) && (byte_val b <=? 191).

Definition in_range (lo hi : Z) (b : byte) : bool :=
  (lo <=? byte_val b) && (byte_val b <=? hi).

Definition cp2 (b0 b1 : byte) : N :=
  Z.to_N ((byte_val b0 - 192) * 64 + (byte_val b1 - 128)).

Definition cp3 (b0 b1 b2 : byte) : N :=
  Z.to_N (((byte_val b0 - 224) * 64 + (byte_val b1 - 128)) * 64
          + (byte_val b2 - 128)).

Definition cp4 (b0 b1 b2 b3 : byte) : N :=
  Z.to_N ((((byte_val b0 - 240) * 64 + (byte_val b1 - 128)) * 64
           + (byte_val b2 - 128)) * 64 + (byte_val b3 - 128)).

(** Strict UTF-8 decoding; [None] stands for [UnicodeDecodeError]. *)
Fixpoint utf8_decode (bs : bytes) : option str :=
  match bs with
  | [] => Some []
  | b0 :: r0 =>
    if byte_val b0 <? 128 then
      cons (Byte.to_N b0) <$> utf8_decode r0
    else if in_range 194 223 b0 then
      match r0 with
      | b1 :: r1 =>
        if is_cont b1 then cons (cp2 b0 b1) <$> utf8_decode r1 else None
      | _ => None
      end
    else if in_range 224 239 b0 then
      match r0 with
      | b1 :: b2 :: r2 =>
        if in_range (if byte_val b0 =? 224 then 160 else 128)
                    (if byte_val b0 =? 237 then 159 else 191) b1
           && is_cont b2
        then cons (cp3 b0 b1 b2) <$> utf8_decode r2 else None
      | _ => None
      end
    else if in_range 240 244 b0 then
      match r0 with
      | b1 :: b2 :: b3 :: r3 =>
        if in_range (if byte_val b0 =? 240 then 144 else 128)
                    (if byte_val b0 =? 244 then 143 else 191) b1
           && is_cont b2 && is_cont b3
        then cons (cp4 b0 b1 b2 b3) <$> utf8_decode r3 else None
      | _ => None
      end
    else None
  end.

(** [str.encode("ascii")]; [None] stands for [UnicodeEncodeError]. *)
Fixpoint ascii_encode (s : str) : option bytes :=
  match s with
  | [] => Some []
  | c :: r =>
    if (c <? 128)%N then
      match Byte.of_N c with
      | Some b => cons b <$> ascii_encode r
      | None => None
      end
    else None
  end.

(** ** [base64.b64encode] and [base64.b64decode] *)

Module Base64.

Definition alphabet : bytes :=
  pyb "ABCDEFGHIJKLMNOPQRSTUVWXYZabcdefghijklmnopqrstuvwxyz0123456789+/".

Definition pad : byte := "="%byte.

(** The character of a 6-bit group. *)
Definition char (i : Z) : byte := nth (Z.to_nat i) alphabet pad.

Fixpoint index_from (k : Z) (tbl : bytes) (c : byte) : option Z :=
  match tbl with
  | [] => None
  | t :: tbl' => if Byte.eqb t c then Some k else index_from (k + 1) tbl' c
  end.

(** The 6-bit group of a character, if it belongs to the alphabet. *)
Definition index (c : byte) : option Z := index_from 0 alphabet c.

Definition byte_of (z : Z) : byte :=
  default "000"%byte (Byte.of_N (Z.to_N z)).

(** Standard alphabet, [=] padding, no line breaks. *)
Fixpoint b64encode (bs : bytes) : bytes :=
  match bs with
  | [] => []
  | [a] =>
    let n := byte_val a * 65536 in
    [char (n / 262144); char (n / 4096 mod 64); pad; pad]
  | [a; b] =>
    let n := byte_val a * 65536 + byte_val b * 256 in
    [char (n / 262144); char (n / 4096 mod 64); char (n / 64 mod 64); pad]
  | a :: b :: c :: rest =>
    let n := byte_val a * 65536 + byte_val b * 256 + byte_val c in
    char (n / 262144) :: char (n / 4096 mod 64) :: char (n / 64 mod 64)
      :: char (n mod 64) :: b64encode rest
  end.

Definition quad (i0 i1 i2 i3 : Z) : Z :=
  ((i0 * 64 + i1) * 64 + i2) * 64 + i3.

(** The last group of four characters, which may carry padding. *)
Definition decode_last (c0 c1 c2 c3 : byte) : option bytes :=
  i0 ← index c0; i1 ← index c1;
  if Byte.eqb c3 pad then
    if Byte.eqb c2 pad then
      Some [byte_of (quad i0 i1 0 0 / 65536)]
    else
      i2 ← index c2;
      let n := quad i0 i1 i2 0 in
      Some [byte_of (n / 65536); byte_of (n / 256 mod 256)]
  else
    i2 ← index c2; i3 ← index c3;
    let n := quad i0 i1 i2 i3 in
    Some [byte_of (n / 65536); byte_of (n / 256 mod 256); byte_of (n mod 256)].

Definition decode_full (c0 c1 c2 c3 : byte) : option bytes :=
  i0 ← index c0; i1 ← index c1; i2 ← index c2; i3 ← index c3;
  let n := quad i0 i1 i2 i3 in
  Some [byte_of (n / 65536); byte_of (n / 256 mod 256); byte_of (n mod 256)].

(** Decoding of canonical base64 text: groups of four characters, padding
    only in the last group; [None] stands for [binascii.Error]. *)
Fixpoint decode_bytes (cs : bytes) : option bytes :=
  match cs with
  | [] => Some []
  | c0 :: c1 :: c2 :: c3 :: rest =>
    match rest with
    | [] => decode_last c0 c1 c2 c3
    | _ => q ← decode_full c0 c1 c2 c3; r ← decode_bytes rest; Some (q ++ r)
    end
  | _ => None
  end.

(** [base64.b64decode] applied to a [str]: the text is first encoded as
    ASCII. *)
Definition b64decode (s : str) : option bytes :=
  ascii_encode s ≫= decode_bytes.

End Base64.

(** ** Exceptions *)

(** The exception classes the modelled code can see; all of them derive
    from [Exception]. *)
Inductive Exception :=
| ValueError (msg : str)
| TypeError (msg : str)
| AttributeError (cls attr : str)
| OSError (filename : str)
| JSONDecodeError
| UnicodeDecodeError
| UnicodeEncodeError
| ValidationError (title : str) (errors : list (str * str))
| HTTPStatusError (status_code : Z)
| RequestError (msg : str)
| HTTPException (status_code : Z) (detail : str).

Inductive Result (A : Type) :=
| Ok (a : A)
| Raise (e : Exception).
Arguments Ok {A} a.
Arguments Raise {A} e.

(** What the interpreter and the libraries contribute: the Unicode
    upper-case table, pydantic's lax-mode coercions into [bool] and
    [datetime], [str(e)] on exceptions, and the [APP_DEBUG] setting. *)
Record Runtime := {
  unicode_upper : N -> list N;
  lax_bool : Value -> option bool;
  lax_datetime : Value -> option datetime;
  exception_str : Exception -> str;
  APP_DEBUG : bool
}.

Definition upper (rt : Runtime) (s : str) : str :=
  upper_with (unicode_upper rt) s.

(** ** HTTP exchange with the upstream server ([httpx]) *)

Inductive Method := GET | POST | DELETE.

Inductive Body :=
| NoBody
| JsonBody (payload : Value)
| MultipartBody (files : gmap str (str * bytes)) (data : gmap str str).

Record Request := {
  method : Method;
  url : str;
  body : Body
}.

Record Response := {
  status_code : Z;
  content : bytes;
  json : option Value          (* [None]: the body is not a JSON document *)
}.

(** What one call on the client yields: a response, or an exception raised
    by the transport. *)
Inductive Outcome :=
| Responded (r : Response)
| Failed (e : Exception).

Record AsyncClient := {
  ac_timeout : Z;
  ac_headers : gmap str str;
  is_closed : bool
}.

(** [pathlib.Path]; an instance is always truthy. *)
Record Path := { path_str : str }.

(** ** Pydantic models *)

Module WahaSession.
Record t := {
  id : str;
  name : str;
  status : str;
  config : gmap str Value;
  created_at : option datetime;
  updated_at : option datetime
}.
End WahaSession.

Module WahaGroup.
Record t := {
  id : str;
  name : str;
  description : option str;
  participants : list str;
  created_at : option datetime
}.
End WahaGroup.

Module SessionResponse.
Record t := {
  id : str;
  name : str;
  status : str;
  config : option (gmap str Value);
  created_at : option datetime
}.
End SessionResponse.

Module SessionStatusResponse.
Record t := {
  session : SessionResponse.t;
  connected : bool;
  phone : option str
}.
End SessionStatusResponse.

Module MessageResponse.
Record t := {
  id : str;
  chat_id : str;
  status : str;
  timestamp : datetime
}.
End MessageResponse.

Module HealthResponse.
Record t := {
  status : str;
  waha_connected : bool;
  timestamp : datetime
}.
End HealthResponse.

Module FileResponse.
Record t := {
  id : str;
  chat_id : str;
  status : str;
  url : option str
}.
End FileResponse.

(** The body of [POST /sessions], once validated: [name] has between 1
    and 100 characters, none of them a surrogate. *)
Module SessionCreate.
Record t := {
  name : str;
  config : option (gmap str Value)
}.
End SessionCreate.

(** [fastapi.UploadFile]: the file name the client sent and the uploaded
    bytes, which [await file.read()] returns. *)
Module UploadFile.
Record t := {
  filename : option str;
  data : bytes
}.
End UploadFile.

(** The settings the client reads ([app/core/config.py]). *)
Record Settings := {
  WAHA_URL : str;
  WAHA_API_KEY : option str
}.

(** *** Field validation

    A keyword argument is [None] when the call does not pass it.  Every
    field is checked and the errors of all fields are collected, as
    pydantic does. *)
Module Validate.

Definition Errors := list (str * str).
Definition Checked (A : Type) : Type := Errors + A.

Definition ap {A B} (f : Checked (A -> B)) (x : Checked A) : Checked B :=
  match f, x with
  | inr f, inr x => inr (f x)
  | inl e, inr _ => inl e
  | inr _, inl e => inl e
  | inl e1, inl e2 => inl (e1 ++ e2)
  end.

Definition finish {A} (title : string) (c : Checked A) : Result A :=
  match c with
  | inr a => Ok a
  | inl errors => Raise (ValidationError (py title) errors)
  end.

Definition missing {A} (field : string) : Checked A :=
  inl [(py field, py "missing")].

Definition wrong {A} (field kind : string) : Checked A :=
  inl [(py field, py kind)].

Definition as_str (field : string) (v : Value) : Checked str :=
  match v with
  | VStr s => inr s
  | VBytes b =>
    match utf8_decode b with
    | Some s => inr s
    | None => wrong field "string_unicode"
    end
  | _ => wrong field "string_type"
  end.

(** [name: str = Field(...)] *)
Definition required_str (field : string) (v : option Value) : Checked str :=
  match v with
  | None => missing field
  | Some v => as_str field v
  end.

Definition is_surrogate (c : N) : bool :=
  ((0xD800 <=? c) && (c <=? 0xDFFF))%N.

(** [name: str = Field(..., min_length=lo, max_length=hi)]: to apply the
    bounds the string is read as UTF-8 text, which a string with a
    surrogate is not, and its length is counted in characters. *)
Definition required_str_between (field : string) (lo hi : nat)
  (v : option Value) : Checked str :=
  match required_str field v with
  | inr s =>
    if existsb is_surrogate s then wrong field "string_unicode"
    else if (length s <? lo)%nat then wrong field "string_too_short"
    else if (hi <? length s)%nat then wrong field "string_too_long"
    else inr s
  | inl e => inl e
  end.

(** [name: Optional[str] = Field(None)] *)
Definition optional_str (field : string) (v : option Value)
  : Checked (option str) :=
  match v with
  | None | Some VNone => inr None
  | Some v =>
    match as_str field v with
    | inr s => inr (Some s)
    | inl e => inl e
    end
  end.

(** [name: bool = Field(...)] *)
Definition required_bool (rt : Runtime) (field : string) (v : option Value)
  : Checked bool :=
  match v with
  | None => missing field
  | Some (VBool b) => inr b
  | Some v =>
    match lax_bool rt v with
    | Some b => inr b
    | None => wrong field "bool_parsing"
    end
  end.

Definition as_datetime (rt : Runtime) (field : string) (v : Value)
  : Checked datetime :=
  match v with
  | VDatetime t => inr t
  | _ => match lax_datetime rt v with
         | Some t => inr t
         | None => wrong field "datetime_type"
         end
  end.

(** [name: datetime = Field(...)] *)
Definition required_datetime (rt : Runtime) (field : string)
  (v : option Value) : Checked datetime :=
  match v with
  | None => missing field
  | Some v => as_datetime rt field v
  end.

(** [name: Optional[datetime] = Field(None)] *)
Definition optional_datetime (rt : Runtime) (field : string)
  (v : option Value) : Checked (option datetime) :=
  match v with
  | None | Some VNone => inr None
  | Some v => match as_datetime rt field v with
              | inr t => inr (Some t)
              | inl e => inl e
              end
  end.

(** [name: Dict[str, Any] = Field(default_factory=dict)] *)
Definition default_dict (field : string) (v : option Value)
  : Checked (gmap str Value) :=
  match v with
  | None => inr ∅
  | Some (VDict d) => inr d
  | Some _ => wrong field "dict_type"
  end.

(** [name: Optional[Dict[str, Any]] = Field(None)] *)
Definition optional_dict (field : string) (v : option Value)
  : Checked (option (gmap str Value)) :=
  match v with
  | None | Some VNone => inr None
  | Some (VDict d) => inr (Some d)
  | Some _ => wrong field "dict_type"
  end.

Fixpoint all_str (l : list Value) : option (list str) :=
  match l with
  | [] => Some []
  | VStr s :: l' => cons s <$> all_str l'
  | _ => None
  end.

(** [name: List[str] = Field(default_factory=list)] *)
Definition default_list_str (field : string) (v : option Value)
  : Checked (list str) :=
  match v with
  | None => inr []
  | Some (VList l) =>
    match all_str l with
    | Some ss => inr ss
    | None => wrong field "string_type"
    end
  | Some _ => wrong field "list_type"
  end.

End Validate.

(** *** Constructors ([Model(...)]) *)

Section Constructors.
Variable rt : Runtime.
Import Validate.

Definition WahaSession_init
  (id name status config created_at updated_at : option Value)
  : Result WahaSession.t :=
  finish "WahaSession"
    (ap (ap (ap (ap (ap (ap (inr WahaSession.Build_t)
      (required_str "id" id))
      (required_str "name" name))
      (required_str "status" status))
      (default_dict "config" config))
      (optional_datetime rt "created_at" created_at))
      (optional_datetime rt "updated_at" updated_at)).

Definition WahaGroup_init
  (id name description participants created_at : option Value)
  : Result WahaGroup.t :=
  finish "WahaGroup"
    (ap (ap (ap (ap (ap (inr WahaGroup.Build_t)
      (required_str "id" id))
      (required_str "name" name))
      (optional_str "description" description))
      (default_list_str "participants" participants))
      (optional_datetime rt "created_at" created_at)).

Definition SessionResponse_init
  (id name status config created_at : option Value)
  : Result SessionResponse.t :=
  finish "SessionResponse"
    (ap (ap (ap (ap (ap (inr SessionResponse.Build_t)
      (required_str "id" id))
      (required_str "name" name))
      (required_str "status" status))
      (optional_dict "config" config))
      (optional_datetime rt "created_at" created_at)).

Definition SessionStatusResponse_init
  (session : option SessionResponse.t) (connected phone : option Value)
  : Result SessionStatusResponse.t :=
  finish "SessionStatusResponse"
    (ap (ap (ap (inr SessionStatusResponse.Build_t)
      (match session with
       | Some s => inr s
       | None => missing "session"
       end))
      (required_bool rt "connected" connected))
      (optional_str "phone" phone)).

Definition MessageResponse_init
  (id chat_id status timestamp : option Value)
  : Result MessageResponse.t :=
  finish "MessageResponse"
    (ap (ap (ap (ap (inr MessageResponse.Build_t)
      (required_str "id" id))
      (required_str "chat_id" chat_id))
      (required_str "status" status))
      (required_datetime rt "timestamp" timestamp)).

(** [timestamp] has [default_factory=datetime.utcnow]; [health_check]
    always passes it, so the constructor takes it as given. *)
Definition HealthResponse_init
  (status waha_connected : option Value) (timestamp : Value)
  : Result HealthResponse.t :=
  finish "HealthResponse"
    (ap (ap (ap (inr HealthResponse.Build_t)
      (required_str "status" status))
      (required_bool rt "waha_connected" waha_connected))
      (as_datetime rt "timestamp" timestamp)).

(** Unpacking [data] into keyword arguments: it has to be a mapping. *)
Definition kwargs (data : Value) : Result (gmap str Value) :=
  match data with
  | VDict d => Ok d
  | _ => Raise (TypeError (py "argument after ** must be a mapping"))
  end.

Definition WahaSession_from (data : Value) : Result WahaSession.t :=
  match kwargs data with
  | Ok d =>
    WahaSession_init (d !! py "id") (d !! py "name") (d !! py "status")
      (d !! py "config") (d !! py "created_at") (d !! py "updated_at")
  | Raise e => Raise e
  end.

Definition WahaGroup_from (data : Value) : Result WahaGroup.t :=
  match kwargs data with
  | Ok d =>
    WahaGroup_init (d !! py "id") (d !! py "name") (d !! py "description")
      (d !! py "participants") (d !! py "created_at")
  | Raise e => Raise e
  end.

Definition FileResponse_init (id chat_id status url : option Value)
  : Result FileResponse.t :=
  finish "FileResponse"
    (ap (ap (ap (ap (inr FileResponse.Build_t)
      (required_str "id" id))
      (required_str "chat_id" chat_id))
      (required_str "status" status))
      (optional_str "url" url)).

(** The fields of [SessionCreate], checked as pydantic checks them. *)
Definition SessionCreate_check (name config : option Value)
  : Checked SessionCreate.t :=
  ap (ap (inr SessionCreate.Build_t)
    (required_str_between "name" 1 100 name))
    (optional_dict "config" config).

End Constructors.

(** Attribute access on a [WahaSession] instance: the declared fields, and
    [AttributeError] for any other name. *)
Definition optional_value (o : option datetime) : Value :=
  match o with
  | Some t => VDatetime t
  | None => VNone
  end.

Definition WahaSession_fields (s : WahaSession.t) : list (str * Value) :=
  [ (py "id", VStr (WahaSession.id s));
    (py "name", VStr (WahaSession.name s));
    (py "status", VStr (WahaSession.status s));
    (py "config", VDict (WahaSession.config s));
    (py "created_at", optional_value (WahaSession.created_at s));
    (py "updated_at", optional_value (WahaSession.updated_at s)) ].

Fixpoint assoc (k : str) (l : list (str * Value)) : option Value :=
  match l with
  | [] => None
  | (k', v) :: l' => if decide (k = k') then Some v else assoc k l'
  end.

Definition WahaSession_getattr (s : WahaSession.t) (attr : str)
  : Result Value :=
  match assoc attr (WahaSession_fields s) with
  | Some v => Ok v
  | None => Raise (AttributeError (py "WahaSession") attr)
  end.

(** ** The world the gateway runs in *)

(** The client object ([WahaClient.__init__]); one instance is shared by
    all controllers. *)
Record WahaClientState := {
  base_url : str;
  api_key : option str;
  timeout : Z;                       (* seconds *)
  http_client : option AsyncClient
}.

Record World := {
  waha_client : WahaClientState;     (* the shared client instance *)
  upstream : Request -> Outcome;     (* the bridging server and the network *)
  fs : gmap str bytes;               (* readable files, by path *)
  clock : datetime;                  (* what [datetime.utcnow()] reads *)
  wire : list Request                (* requests issued so far, oldest first *)
}.

Definition set_http_client (h : option AsyncClient) (w : World) : World :=
  {| waha_client := {| base_url := base_url (waha_client w);
                       api_key := api_key (waha_client w);
                       timeout := timeout (waha_client w);
                       http_client := h |};
     upstream := upstream w; fs := fs w; clock := clock w; wire := wire w |}.

Definition log_request (req : Request) (w : World) : World :=
  {| waha_client := waha_client w; upstream := upstream w; fs := fs w;
     clock := clock w; wire := wire w ++ [req] |}.

(** ** Computations: state passing with exceptions *)

Definition M (A : Type) : Type := World -> Result A * World.

Definition ret {A} (a : A) : M A := fun w => (Ok a, w).

Definition raise {A} (e : Exception) : M A := fun w => (Raise e, w).

Definition bind {A B} (m : M A) (k : A -> M B) : M B :=
  fun w =>
    match m w with
    | (Ok a, w') => k a w'
    | (Raise e, w') => (Raise e, w')
    end.

Definition lift {A} (r : Result A) : M A := fun w => (r, w).

(** [try: body / except Exception as e: handler e] *)
Definition try_except {A} (body : M A) (handler : Exception -> M A) : M A :=
  fun w =>
    match body w with
    | (Ok a, w') => (Ok a, w')
    | (Raise e, w') => handler e w'
    end.

Notation "x <- m ;; k" := (bind m (fun x => k))
  (at level 100, m at next level, right associativity).

Notation "m ;;; k" := (bind m (fun _ => k))
  (at level 100, right associativity).

(** Reading the environment. *)
Definition self_base_url : M str :=
  fun w => (Ok (base_url (waha_client w)), w).

Definition utcnow : M datetime := fun w => (Ok (clock w), w).

(** The file-system encoding, UTF-8 with [surrogateescape], encodes every
    code point but the surrogates outside U+DC80..U+DCFF. *)
Definition fs_encodable (c : N) : bool :=
  ((c <? 0xD800) || (0xDFFF <? c) || ((0xDC80 <=? c) && (c <=? 0xDCFF)))%N.

(** What [open] raises for a name it does not open: the name is encoded
    first ([UnicodeEncodeError]), then searched for a NUL character
    ([ValueError]), and only then handed to the operating system
    ([OSError]: no such file, a directory, no permission, ...). *)
Definition open_error (name : str) : Exception :=
  if negb (forallb fs_encodable name) then UnicodeEncodeError
  else if bool_decide (0%N ∈ name) then ValueError (py "embedded null byte")
  else OSError name.

(** [with open(path, "rb") as f: f.read()].  [fs] lists the files that can
    be opened and read; a name that [open] turns down before it reaches
    the operating system names none of them. *)
Definition read_file (p : Path) : M bytes :=
  fun w =>
    match fs w !! path_str p with
    | Some c => (Ok c, w)
    | None => (Raise (open_error (path_str p)), w)
    end.

(** One call on the [httpx] client: the request goes out and the outcome
    comes back. *)
Definition request (req : Request) : M Response :=
  fun w =>
    match upstream w req with
    | Responded r => (Ok r, log_request req w)
    | Failed e => (Raise e, log_request req w)
    end.

Definition client_get (u : str) : M Response :=
  request {| method := GET; url := u; body := NoBody |}.

Definition client_post_json (u : str) (payload : Value) : M Response :=
  request {| method := POST; url := u; body := JsonBody payload |}.

Definition client_post_files (u : str) (files : gmap str (str * bytes))
  (data : gmap str str) : M Response :=
  request {| method := POST; url := u; body := MultipartBody files data |}.

Definition client_post (u : str) : M Response :=
  request {| method := POST; url := u; body := NoBody |}.

Definition client_delete (u : str) : M Response :=
  request {| method := DELETE; url := u; body := NoBody |}.

(** [s.rstrip(c)] for a one-character [c]. *)
Fixpoint rstrip (c : N) (s : str) : str :=
  match s with
  | [] => []
  | x :: r =>
    match rstrip c r with
    | [] => if decide (x = c) then [] else [x]
    | r' => x :: r'
    end
  end.

(** [d or {}] for an optional dictionary. *)
Definition dict_or_empty (d : option (gmap str Value)) : gmap str Value :=
  match d with
  | Some m => if decide (m = ∅) then ∅ else m
  | None => ∅
  end.

Definition is_success (r : Response) : bool :=
  (200 <=? status_code r) && (status_code r <=? 299).

Definition raise_for_status (r : Response) : M unit :=
  if is_success r then ret tt else raise (HTTPStatusError (status_code r)).

Definition response_json (r : Response) : M Value :=
  match json r with
  | Some v => ret v
  | None => raise JSONDecodeError
  end.

(** [d.get(key, default)] on whatever [response.json()] returned. *)
Definition dict_get (d : Value) (key : str) (dflt : Value) : Result Value :=
  match d with
  | VDict m => Ok (default dflt (m !! key))
  | _ => Raise (AttributeError (py "object") (py "get"))
  end.

(** What [len(v)] followed by [for x in v] sees of a decoded JSON value. *)
Definition iterate (v : Value) : Result (list Value) :=
  match v with
  | VList l => Ok l
  | VDict m => Ok ((fun kv => VStr kv.1) <$> map_to_list m)
  | VStr s => Ok ((fun c => VStr [c]) <$> s)
  | _ => Raise (TypeError (py "object has no len()"))
  end.

Fixpoint traverse {A B} (f : A -> Result B) (l : list A) : Result (list B) :=
  match l with
  | [] => Ok []
  | x :: l' =>
    match f x with
    | Ok y => match traverse f l' with
              | Ok ys => Ok (y :: ys)
              | Raise e => Raise e
              end
    | Raise e => Raise e
    end
  end.

(** ** [WahaClient] ([app/utils/waha_client.py]) *)

Module WahaClient.
Section Methods.
Variable rt : Runtime.

Definition _get_headers (c : WahaClientState) : gmap str str :=
  let headers : gmap str str :=
    <[py "Accept" := py "application/json"]>
      {[ py "Content-Type" := py "application/json" ]} in
  match api_key c with
  | Some k =>
    if truthy_str k
    then <[py "Authorization" := py "Bearer " ++ k]> headers
    else headers
  | None => headers
  end.

Definition new_client (c : WahaClientState) : AsyncClient :=
  {| ac_timeout := timeout c; ac_headers := _get_headers c;
     is_closed := false |}.

Definition _get_client : M AsyncClient :=
  fun w =>
    match http_client (waha_client w) with
    | Some h =>
      if is_closed h
      then let h' := new_client (waha_client w) in
           (Ok h', set_http_client (Some h') w)
      else (Ok h, w)
    | None =>
      let h' := new_client (waha_client w) in
      (Ok h', set_http_client (Some h') w)
    end.

Definition ping : M bool :=
  try_except
    (client <- _get_client ;;
     base <- self_base_url ;;
     response <- client_get (base ++ py "/ping") ;;
     raise_for_status response ;;;
     ret true)
    (fun e => ret false).

Definition get_session_status (session_name : str)
  : M (option WahaSession.t) :=
  try_except
    (client <- _get_client ;;
     base <- self_base_url ;;
     response <- client_get (base ++ py "/api/sessions/" ++ session_name) ;;
     if status_code response =? 404 then ret None
     else
       raise_for_status response ;;;
       data <- response_json response ;;
       session <- lift (WahaSession_from rt data) ;;
       ret (Some session))
    (fun e => raise e).

Definition optional_str_value (o : option str) : Value :=
  match o with
  | Some s => VStr s
  | None => VNone
  end.

Definition truthy_opt_str (o : option str) : bool :=
  match o with
  | Some s => truthy_str s
  | None => false
  end.

Definition truthy_opt_bytes (o : option bytes) : bool :=
  match o with
  | Some b => truthy_bytes b
  | None => false
  end.

Definition send_message (session_name chat_id message : str)
  (quoted_message_id : option str) : M Value :=
  try_except
    (client <- _get_client ;;
     let payload : gmap str Value :=
       <[py "message" := VStr message]> {[ py "chatId" := VStr chat_id ]} in
     let payload :=
       if truthy_opt_str quoted_message_id
       then <[py "quotedMessageId" :=
                optional_str_value quoted_message_id]> payload
       else payload in
     base <- self_base_url ;;
     response <- client_post_json
       (base ++ py "/api/sessions/" ++ session_name ++ py "/send/text")
       (VDict payload) ;;
     raise_for_status response ;;;
     response_json response)
    (fun e => raise e).

Definition send_file (session_name chat_id : str)
  (file_path : option Path) (file_content : option bytes)
  (file_url : option str) (caption : option str) (filename : option str)
  : M Value :=
  try_except
    (client <- _get_client ;;
     file_content <-
       match file_path with
       | Some p => c <- read_file p ;; ret (Some c)
       | None => ret file_content
       end ;;
     base <- self_base_url ;;
     response <-
       (if truthy_opt_bytes file_content then
          let files : gmap str (str * bytes) :=
            {[ py "file" := (str_or filename (py "file"),
                             default [] file_content) ]} in
          let data : gmap str str := {[ py "chatId" := chat_id ]} in
          let data :=
            if truthy_opt_str caption
            then <[py "caption" := default [] caption]> data
            else data in
          client_post_files
            (base ++ py "/api/sessions/" ++ session_name ++ py "/send/file")
            files data
        else if truthy_opt_str file_url then
          let payload : gmap str Value :=
            <[py "filename" := optional_str_value filename]>
              (<[py "caption" := optional_str_value caption]>
                 (<[py "url" := optional_str_value file_url]>
                    {[ py "chatId" := VStr chat_id ]})) in
          client_post_json
            (base ++ py "/api/sessions/" ++ session_name ++ py "/send/file")
            (VDict payload)
        else
          raise (ValueError
                   (py "Must provide file_path, file_content, or file_url")))
       ;;
     raise_for_status response ;;;
     response_json response)
    (fun e => raise e).

Definition download_file (session_name message_id : str) : M bytes :=
  try_except
    (client <- _get_client ;;
     base <- self_base_url ;;
     response <- client_get
       (base ++ py "/api/sessions/" ++ session_name ++ py "/messages/"
             ++ message_id ++ py "/download") ;;
     raise_for_status response ;;;
     ret (content response))
    (fun e => raise e).

Definition get_groups (session_name : str) : M (list WahaGroup.t) :=
  try_except
    (client <- _get_client ;;
     base <- self_base_url ;;
     response <- client_get
       (base ++ py "/api/sessions/" ++ session_name ++ py "/groups") ;;
     raise_for_status response ;;;
     groups_data <- response_json response ;;
     items <- lift (iterate groups_data) ;;
     lift (traverse (WahaGroup_from rt) items))
    (fun e => raise e).

(** [WahaClient(base_url, api_key, timeout)] *)
Definition __init__ (settings : Settings) (base_url' api_key' : option str)
  (timeout' : Z) : WahaClientState :=
  {| base_url := str_or base_url' (rstrip 47 (WAHA_URL settings));
     api_key := if truthy_opt_str api_key' then api_key'
                else WAHA_API_KEY settings;
     timeout := timeout';
     http_client := None |}.

Definition close : M unit :=
  fun w =>
    match http_client (waha_client w) with
    | Some h =>
      if is_closed h then (Ok tt, w)
      else (Ok tt, set_http_client None w)
    | None => (Ok tt, w)
    end.

Definition start_session (session_name : str)
  (config : option (gmap str Value)) : M WahaSession.t :=
  try_except
    (client <- _get_client ;;
     let payload : gmap str Value :=
       <[py "config" := VDict (dict_or_empty config)]>
         {[ py "name" := VStr session_name ]} in
     base <- self_base_url ;;
     response <- client_post_json (base ++ py "/api/sessions/start")
                   (VDict payload) ;;
     raise_for_status response ;;;
     session_data <- response_json response ;;
     lift (WahaSession_from rt session_data))
    (fun e => raise e).

Definition stop_session (session_name : str) : M Value :=
  try_except
    (client <- _get_client ;;
     base <- self_base_url ;;
     response <- client_post
       (base ++ py "/api/sessions/stop/" ++ session_name) ;;
     raise_for_status response ;;;
     response_json response)
    (fun e => raise e).

Definition logout_session (session_name : str) : M Value :=
  try_except
    (client <- _get_client ;;
     base <- self_base_url ;;
     response <- client_delete (base ++ py "/api/sessions/" ++ session_name) ;;
     raise_for_status response ;;;
     response_json response)
    (fun e => raise e).

Definition upload_file (session_name : str) (file_path : option Path)
  (file_content : option bytes) (filename : option str) : M Value :=
  try_except
    (client <- _get_client ;;
     file_content <-
       match file_path with
       | Some p => c <- read_file p ;; ret (Some c)
       | None => ret file_content
       end ;;
     base <- self_base_url ;;
     response <-
       (if truthy_opt_bytes file_content then
          let files : gmap str (str * bytes) :=
            {[ py "file" := (str_or filename (py "file"),
                             default [] file_content) ]} in
          client_post_files
            (base ++ py "/api/sessions/" ++ session_name
                  ++ py "/files/upload")
            files ∅
        else
          raise (ValueError (py "Must provide file_path or file_content")))
       ;;
     raise_for_status response ;;;
     response_json response)
    (fun e => raise e).

Definition send_message_to_group (session_name group_id message : str)
  : M Value :=
  send_message session_name group_id message None.

Definition send_file_to_group (session_name group_id : str)
  (file_path : option Path) (file_content : option bytes)
  (file_url : option str) (caption : option str) (filename : option str)
  : M Value :=
  send_file session_name group_id file_path file_content file_url caption
    filename.

End Methods.
End WahaClient.

(** ** Controllers ([app/controllers]) *)

Definition connected_statuses : list str :=
  [py "STARTED"; py "CONNECTED"; py "READY"].

Module SessionController.
Section Methods.
Variable rt : Runtime.

Definition get_session_status (session_name : str)
  : M SessionStatusResponse.t :=
  session <- WahaClient.get_session_status rt session_name ;;
  match session with
  | None =>
    sr <- lift (SessionResponse_init rt
                  (Some (VStr session_name)) (Some (VStr session_name))
                  (Some (VStr (py "NOT_FOUND"))) None None) ;;
    lift (SessionStatusResponse_init rt
            (Some sr) (Some (VBool false)) (Some VNone))
  | Some session =>
    let connected :=
      bool_decide (upper rt (WahaSession.status session)
                     ∈ connected_statuses) in
    sr <- lift (SessionResponse_init rt
                  (Some (VStr (WahaSession.id session)))
                  (Some (VStr (WahaSession.name session)))
                  (Some (VStr (WahaSession.status session)))
                  (Some (VDict (WahaSession.config session)))
                  (Some (optional_value (WahaSession.created_at session)))) ;;
    lift (SessionStatusResponse_init rt
            (Some sr) (Some (VBool connected)) (Some VNone))
  end.

Definition list_sessions : M (list Value) :=
  sessions <- WahaClient.get_session_status rt [] ;;
  match sessions with
  | None => ret []
  | Some sessions =>
    s <- lift (WahaSession_getattr sessions (py "session")) ;;
    ret [s]
  end.

Definition check_connection (session_name : str) : M (gmap str Value) :=
  session <- WahaClient.get_session_status rt session_name ;;
  let connected :=
    match session with
    | None => false
    | Some session =>
      bool_decide (upper rt (WahaSession.status session)
                     ∈ connected_statuses)
    end in
  ret {[ py "connected" := VBool connected ]}.

Definition start_session (session_data : SessionCreate.t)
  : M SessionResponse.t :=
  session <- WahaClient.start_session rt
               (SessionCreate.name session_data)
               (SessionCreate.config session_data) ;;
  lift (SessionResponse_init rt
          (Some (VStr (WahaSession.id session)))
          (Some (VStr (WahaSession.name session)))
          (Some (VStr (WahaSession.status session)))
          (Some (VDict (WahaSession.config session)))
          (Some (optional_value (WahaSession.created_at session)))).

Definition stop_session (session_name : str) : M (gmap str Value) :=
  WahaClient.stop_session session_name ;;;
  ret (<[py "session" := VStr session_name]>
         {[ py "status" := VStr (py "stopped") ]}).

Definition logout_session (session_name : str) : M (gmap str Value) :=
  WahaClient.logout_session session_name ;;;
  ret (<[py "session" := VStr session_name]>
         {[ py "status" := VStr (py "logged_out") ]}).

End Methods.
End SessionController.

Module MessageController.
Section Methods.
Variable rt : Runtime.

Definition send_message (session_name chat_id message : str)
  (quoted_message_id : option str) : M MessageResponse.t :=
  result <- WahaClient.send_message session_name chat_id message
              quoted_message_id ;;
  id <- lift (dict_get result (py "id") (VStr [])) ;;
  status <- lift (dict_get result (py "status") (VStr (py "sent"))) ;;
  lift (MessageResponse_init rt
          (Some id) (Some (VStr chat_id)) (Some status) None).

Definition send_message_to_group (session_name group_id message : str)
  : M MessageResponse.t :=
  result <- WahaClient.send_message_to_group session_name group_id message ;;
  id <- lift (dict_get result (py "id") (VStr [])) ;;
  status <- lift (dict_get result (py "status") (VStr (py "sent"))) ;;
  lift (MessageResponse_init rt
          (Some id) (Some (VStr group_id)) (Some status) None).

End Methods.
End MessageController.

Module GroupController.
Section Methods.
Variable rt : Runtime.

Definition group_details (group : WahaGroup.t) : gmap str Value :=
  <[py "created_at" := optional_value (WahaGroup.created_at group)]>
    (<[py "participants" := VList (VStr <$> WahaGroup.participants group)]>
       (<[py "description" :=
            WahaClient.optional_str_value (WahaGroup.description group)]>
          (<[py "name" := VStr (WahaGroup.name group)]>
             {[ py "id" := VStr (WahaGroup.id group) ]}))).

(** The [for group in groups] loop of [get_group_details]. *)
Fixpoint scan (groups : list WahaGroup.t) (group_id : str)
  : gmap str Value :=
  match groups with
  | [] => {[ py "error" := VStr (py "Group not found") ]}
  | group :: groups' =>
    if decide (WahaGroup.id group = group_id)
    then group_details group
    else scan groups' group_id
  end.

Definition get_group_details (session_name group_id : str)
  : M (gmap str Value) :=
  groups <- WahaClient.get_groups rt session_name ;;
  ret (scan groups group_id).

Definition get_groups (session_name : str) : M (list (gmap str Value)) :=
  groups <- WahaClient.get_groups rt session_name ;;
  ret (group_details <$> groups).

Definition send_message_to_group (session_name group_id message : str)
  : M MessageResponse.t :=
  result <- WahaClient.send_message_to_group session_name group_id message ;;
  id <- lift (dict_get result (py "id") (VStr [])) ;;
  status <- lift (dict_get result (py "status") (VStr (py "sent"))) ;;
  lift (MessageResponse_init rt
          (Some id) (Some (VStr group_id)) (Some status) None).

Definition list_my_groups (session_name : str)
  : M (list (gmap str Value)) :=
  get_groups session_name.

End Methods.
End GroupController.

Module FileController.

Definition download_file (session_name message_id : str)
  : M (gmap str Value) :=
  file_content <- WahaClient.download_file session_name message_id ;;
  match utf8_decode (Base64.b64encode file_content) with
  | Some text =>
    ret (<[py "message_id" := VStr message_id]>
           {[ py "file" := VStr text ]})
  | None => raise UnicodeDecodeError
  end.

(** The construction the four senders end with:
    [FileResponse(id=result.get("id", ""), chat_id=...,
    status=result.get("status", "sent"), url=result.get("url"))]. *)
Definition file_response (result : Value) (chat_id : str)
  : M FileResponse.t :=
  id <- lift (dict_get result (py "id") (VStr [])) ;;
  status <- lift (dict_get result (py "status") (VStr (py "sent"))) ;;
  url <- lift (dict_get result (py "url") VNone) ;;
  lift (FileResponse_init
          (Some id) (Some (VStr chat_id)) (Some status) (Some url)).

Definition send_file_from_path (session_name chat_id : str)
  (file_path : Path) (caption filename : option str) : M FileResponse.t :=
  result <- WahaClient.send_file session_name chat_id (Some file_path) None
              None caption filename ;;
  file_response result chat_id.

Definition send_file_from_content (session_name chat_id : str)
  (file_content : bytes) (caption filename : option str)
  : M FileResponse.t :=
  result <- WahaClient.send_file session_name chat_id None
              (Some file_content) None caption filename ;;
  file_response result chat_id.

Definition send_file_from_url (session_name chat_id file_url : str)
  (caption filename : option str) : M FileResponse.t :=
  result <- WahaClient.send_file session_name chat_id None None
              (Some file_url) caption filename ;;
  file_response result chat_id.

Definition send_file_to_group (session_name group_id : str)
  (file_path : option Path) (file_content : option bytes)
  (file_url caption filename : option str) : M FileResponse.t :=
  result <- WahaClient.send_file_to_group session_name group_id file_path
              file_content file_url caption filename ;;
  file_response result group_id.

Definition upload_file (session_name : str) (file : UploadFile.t)
  : M Value :=
  WahaClient.upload_file session_name None (Some (UploadFile.data file))
    (UploadFile.filename file).

End FileController.

(** ** Routes ([app/routes], [app/main.py]) *)

(** What the framework sends back for a handler: the returned value with
    the route's status code, the status and detail of an [HTTPException],
    or the envelope of [global_exception_handler]; and, when the request
    does not validate against the handler's parameters, status 422 with
    the validation errors as detail, the handler not being called. *)
Inductive Reply (A : Type) :=
| Success (status_code : Z) (body : A)
| Failure (status_code : Z) (content : gmap str Value)
| Unprocessable (errors : Validate.Errors).
Arguments Success {A} status_code body.
Arguments Failure {A} status_code content.
Arguments Unprocessable {A} errors.

Definition global_exception_handler (rt : Runtime) (exc : Exception)
  : gmap str Value :=
  <[py "details" :=
      if APP_DEBUG rt then VStr (exception_str rt exc) else VNone]>
    (<[py "message" := VStr (py "An unexpected error occurred")]>
       {[ py "error" := VStr (py "InternalServerError") ]}).

Definition serve {A} (rt : Runtime) (route_status : Z) (handler : M A)
  (w : World) : Reply A * World :=
  match handler w with
  | (Ok a, w') => (Success route_status a, w')
  | (Raise (HTTPException code detail), w') =>
    (Failure code {[ py "detail" := VStr detail ]}, w')
  | (Raise e, w') => (Failure 500 (global_exception_handler rt e), w')
  end.

(** *** Request bodies

    What the framework hands to validation as the body of a request:
    nothing when no bytes were sent, the decoded document for a JSON
    content type, the raw bytes ([VBytes]) for any other. *)
Inductive RequestBody :=
| NoContent
| InvalidJson                  (* JSON content type, not a JSON document *)
| Content (v : Value).

(** A handler parameter [session_data: SessionCreate] is the whole body.
    Errors are located by field, or at [body] when they concern the body
    as a whole; a JSON [null] counts as no body. *)
Definition SessionCreate_from_body (b : RequestBody)
  : Validate.Checked SessionCreate.t :=
  match b with
  | NoContent | Content VNone => Validate.missing "body"
  | InvalidJson => Validate.wrong "body" "json_invalid"
  | Content (VDict d) => SessionCreate_check (d !! py "name") (d !! py "config")
  | Content _ => Validate.wrong "body" "model_attributes_type"
  end.

(** *** Registering a route

    A decorator [@router.get(...)] or [@router.post(...)] analyses the
    parameters of the handler when the module is imported.  A parameter
    declared with [Depends] is resolved by calling the dependency.  Of the
    others, a pydantic model is read from the body, an [UploadFile] from
    the form, a scalar from the path or the query string.  Any other class
    is taken for a query parameter, no field can be made of it, and the
    decorator raises [FastAPIError]: the route is not added to the
    router. *)
Inductive Annotation :=
| Scalar                       (* [str], [Optional[str]], ... *)
| Model                        (* a subclass of [BaseModel] *)
| Upload                       (* [UploadFile] *)
| PlainClass (name : string).  (* any other class *)

Record Param := {
  param_name : string;
  annotation : Annotation;
  has_depends : bool
}.

Inductive Route (A : Type) :=
| Mounted (endpoint : World -> Reply A * World)
| Refused (param cls : string).   (* [FastAPIError], naming the class *)
Arguments Mounted {A} endpoint.
Arguments Refused {A} param cls.

Fixpoint invalid_parameter (params : list Param)
  : option (string * string) :=
  match params with
  | [] => None
  | p :: rest =>
    match has_depends p, annotation p with
    | false, PlainClass cls => Some (param_name p, cls)
    | _, _ => invalid_parameter rest
    end
  end.

Definition register {A} (params : list Param)
  (endpoint : World -> Reply A * World) : Route A :=
  match invalid_parameter params with
  | Some (name, cls) => Refused name cls
  | None => Mounted endpoint
  end.

Module Routes.
Section Handlers.
Variable rt : Runtime.

(** [app/routes/messages.py] *)
Definition send_message (session_name chat_id message : str)
  (quoted_message_id : option str) : M MessageResponse.t :=
  try_except
    (MessageController.send_message rt session_name chat_id message
       quoted_message_id)
    (fun e => raise (HTTPException 500 (exception_str rt e))).

(** [app/routes/health.py] *)
Definition health_check : M HealthResponse.t :=
  waha_connected <- WahaClient.ping ;;
  let status := if waha_connected then py "healthy" else py "degraded" in
  now <- utcnow ;;
  lift (HealthResponse_init rt
          (Some (VStr status)) (Some (VBool waha_connected))
          (VDatetime now)).

(** Neither decorator sets [status_code], so what a handler returns is sent
    with status 200.  [send_message] declares its controller with
    [Depends(get_message_controller)]; [health_check] declares
    [waha_client: WahaClient] with no [Depends]. *)
Definition POST_messages_send (session_name chat_id message : str)
  (quoted_message_id : option str) : World -> Reply MessageResponse.t * World :=
  serve rt 200 (send_message session_name chat_id message quoted_message_id).

Definition GET_health : Route HealthResponse.t :=
  register
    [ {| param_name := "waha_client"; annotation := PlainClass "WahaClient";
         has_depends := false |} ]
    (serve rt 200 health_check).

(** [app/routes/session.py] *)
Definition start_session (session_data : SessionCreate.t)
  : M SessionResponse.t :=
  try_except
    (SessionController.start_session rt session_data)
    (fun e => raise (HTTPException 500 (exception_str rt e))).

Definition check_connection (session_name : str) : M (gmap str Value) :=
  try_except
    (SessionController.check_connection rt session_name)
    (fun e => raise (HTTPException 500 (exception_str rt e))).

(** [app/routes/files.py] *)
Definition send_uploaded_file (session_name chat_id : str)
  (file : UploadFile.t) (caption : option str) : M FileResponse.t :=
  try_except
    (FileController.send_file_from_content session_name chat_id
       (UploadFile.data file) caption (UploadFile.filename file))
    (fun e => raise (HTTPException 500 (exception_str rt e))).

(** [app/routes/health.py] *)
Definition readiness : M (gmap str Value) :=
  waha_connected <- WahaClient.ping ;;
  if waha_connected
  then ret (<[py "waha" := VStr (py "connected")]>
              {[ py "status" := VStr (py "ready") ]})
  else ret (<[py "waha" := VStr (py "disconnected")]>
              {[ py "status" := VStr (py "not_ready") ]}).

(** [POST /sessions] is declared with [status_code=201]; the other
    decorators set none.  Its handler is called with the validated body;
    a body that does not validate is answered with status 422. *)
Definition POST_sessions (body : RequestBody)
  : World -> Reply SessionResponse.t * World :=
  fun w =>
    match SessionCreate_from_body body with
    | inr session_data => serve rt 201 (start_session session_data) w
    | inl errors => (Unprocessable errors, w)
    end.

Definition GET_sessions_connected (session_name : str)
  : World -> Reply (gmap str Value) * World :=
  serve rt 200 (check_connection session_name).

Definition POST_files_send_upload (session_name chat_id : str)
  (file : UploadFile.t) (caption : option str)
  : World -> Reply FileResponse.t * World :=
  serve rt 200 (send_uploaded_file session_name chat_id file caption).

(** [readiness] declares [waha_client: WahaClient] as [health_check]
    does. *)
Definition GET_health_ready : Route (gmap str Value) :=
  register
    [ {| param_name := "waha_client"; annotation := PlainClass "WahaClient";
         has_depends := false |} ]
    (serve rt 200 readiness).

End Handlers.
End Routes.

(** ** Vocabulary of the properties *)

(** The state after the client has been obtained. *)
Definition ready (w : World) : World := snd (WahaClient._get_client w).

Definition send_file_url (w : World) (session_name : str) : str :=
  base_url (waha_client w) ++ py "/api/sessions/" ++ session_name
    ++ py "/send/file".

Definition missing_source : Exception :=
  ValueError (py "Must provide file_path, file_content, or file_url").

(** A request encoded as multipart form data whose file part is named
    [file] and whose [caption] field is there exactly for a non-empty
    caption. *)
Definition multipart_with_file (caption : option str) (req : Request) : Prop :=
  match body req with
  | MultipartBody files data =>
    is_Some (files !! py "file") /\
    (is_Some (data !! py "caption") <->
     exists c, caption = Some c /\ c <> [])
  | _ => False
  end.

(** Between [w] and [w'] exactly one request went out, of that shape. *)
Definition sends_multipart (caption : option str) (w w' : World) : Prop :=
  exists req, wire w' = wire w ++ [req] /\ multipart_with_file caption req.

Definition is_multipart (req : Request) : bool :=
  match body req with
  | MultipartBody _ _ => true
  | _ => false
  end.

(** The request of the URL branch of [send_file]. *)
Definition url_request (w : World) (session_name chat_id : str)
  (file_url caption filename : option str) : Request :=
  {| method := POST;
     url := send_file_url w session_name;
     body := JsonBody (VDict
       (<[py "filename" := WahaClient.optional_str_value filename]>
          (<[py "caption" := WahaClient.optional_str_value caption]>
             (<[py "url" := WahaClient.optional_str_value file_url]>
                {[ py "chatId" := VStr chat_id ]})))) |}.

(** Two strings that differ at most in case. *)
Definition same_ignoring_case (rt : Runtime) (a b : str) : Prop :=
  upper rt a = upper rt b.

(** ** Sample runtime and worlds *)

Definition sample_runtime : Runtime :=
  {| unicode_upper := fun c => [c];
     lax_bool := fun _ => None;
     lax_datetime := fun _ => None;
     exception_str := fun e =>
       match e with
       | ValidationError title _ => py "validation error for " ++ title
       | _ => py "error"
       end;
     APP_DEBUG := false |}.

Definition sample_world (up : Request -> Outcome) : World :=
  {| waha_client := {| base_url := py "http://localhost:3000";
                       api_key := None; timeout := 30;
                       http_client := None |};
     upstream := up;
     fs := {[ py "/tmp/a.bin" := pyb "abc" ]};
     clock := 1700000000;
     wire := [] |}.

Definition json_response (code : Z) (v : Value) : Response :=
  {| status_code := code; content := []; json := Some v |}.

Definition answers (r : Response) : Request -> Outcome :=
  fun _ => Responded r.

Definition unreachable : Request -> Outcome :=
  fun _ => Failed (RequestError (py "connection refused")).

(** The upstream reply of the send-text scenario. *)
Definition sent_m1 : Value :=
  VDict (<[py "status" := VStr (py "sent")]> {[ py "id" := VStr (py "m1") ]}).

Definition session_json (id name status : string) : Value :=
  VDict (<[py "status" := VStr (py status)]>
           (<[py "name" := VStr (py name)]> {[ py "id" := VStr (py id) ]})).

Definition group_json (id name : string) : Value :=
  VDict (<[py "name" := VStr (py name)]> {[ py "id" := VStr (py id) ]}).

(** The requests of the other client methods. *)
Definition ping_request (w : World) : Request :=
  {| method := GET; url := base_url (waha_client w) ++ py "/ping";
     body := NoBody |}.

Definition status_request (w : World) (session_name : str) : Request :=
  {| method := GET;
     url := base_url (waha_client w) ++ py "/api/sessions/" ++ session_name;
     body := NoBody |}.

Definition groups_request (w : World) (session_name : str) : Request :=
  {| method := GET;
     url := base_url (waha_client w) ++ py "/api/sessions/" ++ session_name
              ++ py "/groups";
     body := NoBody |}.

(** Whether the upstream answers the ping with a 2xx status. *)
Definition reachable (w : World) : bool :=
  match upstream w (ping_request w) with
  | Responded r => is_success r
  | Failed _ => false
  end.

Definition not_found_status (session_name : str) : SessionStatusResponse.t :=
  {| SessionStatusResponse.session :=
       {| SessionResponse.id := session_name;
          SessionResponse.name := session_name;
          SessionResponse.status := py "NOT_FOUND";
          SessionResponse.config := None;
          SessionResponse.created_at := None |};
     SessionStatusResponse.connected := false;
     SessionStatusResponse.phone := None |}.

Definition group_not_found : gmap str Value :=
  {[ py "error" := VStr (py "Group not found") ]}.

Definition timestamp_missing : Exception :=
  ValidationError (py "MessageResponse") [(py "timestamp", py "missing")].

(** ** Further vocabulary *)

(** What a method that ends with [response.raise_for_status()] and
    [return response.json()] makes of the outcome of its request. *)
Definition json_outcome (o : Outcome) : Result Value :=
  match o with
  | Failed e => Raise e
  | Responded r =>
    if is_success r then
      match json r with
      | Some v => Ok v
      | None => Raise JSONDecodeError
      end
    else Raise (HTTPStatusError (status_code r))
  end.

Definition slash : N := 47%N.

Definition stop_request (w : World) (session_name : str) : Request :=
  {| method := POST;
     url := base_url (waha_client w) ++ py "/api/sessions/stop/"
              ++ session_name;
     body := NoBody |}.

Definition logout_request (w : World) (session_name : str) : Request :=
  {| method := DELETE;
     url := base_url (waha_client w) ++ py "/api/sessions/" ++ session_name;
     body := NoBody |}.

Definition start_request (w : World) (session_name : str)
  (config : gmap str Value) : Request :=
  {| method := POST;
     url := base_url (waha_client w) ++ py "/api/sessions/start";
     body := JsonBody (VDict (<[py "config" := VDict config]>
                                {[ py "name" := VStr session_name ]})) |}.

Definition text_url (w : World) (session_name : str) : str :=
  base_url (waha_client w) ++ py "/api/sessions/" ++ session_name
    ++ py "/send/text".

Definition text_request (w : World) (session_name chat_id message : str)
  (quoted_message_id : option str) : Request :=
  {| method := POST;
     url := text_url w session_name;
     body := JsonBody (VDict
       (if WahaClient.truthy_opt_str quoted_message_id
        then <[py "quotedMessageId" :=
                 WahaClient.optional_str_value quoted_message_id]>
               (<[py "message" := VStr message]>
                  {[ py "chatId" := VStr chat_id ]})
        else <[py "message" := VStr message]>
               {[ py "chatId" := VStr chat_id ]})) |}.

Definition upload_request (w : World) (session_name : str)
  (filename : option str) (content : bytes) : Request :=
  {| method := POST;
     url := base_url (waha_client w) ++ py "/api/sessions/" ++ session_name
              ++ py "/files/upload";
     body := MultipartBody
               {[ py "file" := (str_or filename (py "file"), content) ]} ∅ |}.

Definition missing_upload : Exception :=
  ValueError (py "Must provide file_path or file_content").

(** What one key of the upstream's JSON object contributes to a required
    text field read with a default: the default when the key is absent,
    the string when it holds one. *)
Definition text_or (dflt : str) (entry : option Value) : option str :=
  match entry with
  | None => Some dflt
  | Some (VStr s) => Some s
  | Some _ => None
  end.

(** The same for an optional text field read without a default: nothing
    when the key is absent or [null]. *)
Definition optional_text (entry : option Value) : option (option str) :=
  match entry with
  | None | Some VNone => Some None
  | Some (VStr s) => Some (Some s)
  | Some _ => None
  end.

(** A name [SessionCreate] refuses, and the error it is refused with. *)
Definition name_refused (n : str) : Prop :=
  existsb Validate.is_surrogate n = true \/
  (length n = 0)%nat \/ (100 < length n)%nat.

Definition name_error (n : str) : str :=
  if existsb Validate.is_surrogate n then py "string_unicode"
  else if decide (n = []) then py "string_too_short"
  else py "string_too_long".

(** A value no text field accepts; [null] is one of them. *)
Definition not_text (v : Value) : Prop :=
  (forall s, v <> VStr s) /\ (forall b, v <> VBytes b).

Definition sample_settings : Settings :=
  {| WAHA_URL := py "http://waha:3000//"; WAHA_API_KEY := Some (py "k1") |}.

Definition sample_group : WahaGroup.t :=
  {| WahaGroup.id := py "g1"; WahaGroup.name := py "Friends";
     WahaGroup.description := None; WahaGroup.participants := [py "1"];
     WahaGroup.created_at := Some 5 |}.

Module Base64Facts.
Import Base64.

Lemma byte_val_range (b : byte) : 0 <= byte_val b < 256.
Proof.
  unfold byte_val. pose proof (Byte.to_N_bounded b). lia.
Qed.

Lemma byte_of_val (b : byte) : byte_of (byte_val b) = b.
Proof.
  unfold byte_of, byte_val. rewrite N2Z.id, Byte.of_to_N. reflexivity.
Qed.

Lemma index_char (i : Z) : 0 <= i < 64 -> index (char i) = Some i.
Proof.
  intros Hi. rewrite <- (Z2Nat.id i) by lia.
  assert (Hn : (Z.to_nat i < 64)%nat) by lia.
  generalize dependent (Z.to_nat i). intros n Hn.
  do 64 (destruct n as [|n]; [vm_compute; reflexivity|]). lia.
Qed.

Lemma char_not_pad (i : Z) : 0 <= i < 64 -> Byte.eqb (char i) pad = false.
Proof.
  intros Hi. rewrite <- (Z2Nat.id i) by lia.
  assert (Hn : (Z.to_nat i < 64)%nat) by lia.
  generalize dependent (Z.to_nat i). intros n Hn.
  do 64 (destruct n as [|n]; [vm_compute; reflexivity|]). lia.
Qed.

End Base64Facts.

Module Base64Round.
Import Base64 Base64Facts.

Lemma list_ind3 {A} (P : list A -> Prop) :
  P [] -> (forall a, P [a]) -> (forall a b, P [a; b]) ->
  (forall a b c l, P l -> P (a :: b :: c :: l)) ->
  forall l, P l.
Proof.
  intros H0 H1 H2 H3.
  refine (fix go l := match l with
                      | [] => H0
                      | [a] => H1 a
                      | [a; b] => H2 a b
                      | a :: b :: c :: l' => H3 a b c l' (go l')
                      end).
Qed.

Lemma sextets_range (n : Z) :
  0 <= n < 16777216 ->
  0 <= n / 262144 < 64 /\ 0 <= n / 4096 mod 64 < 64 /\
  0 <= n / 64 mod 64 < 64 /\ 0 <= n mod 64 < 64.
Proof. intros Hn. Z.to_euclidean_division_equations. lia. Qed.

Lemma group3 (a b c : Z) :
  0 <= a < 256 -> 0 <= b < 256 -> 0 <= c < 256 ->
  let n := a * 65536 + b * 256 + c in
  let m := quad (n / 262144) (n / 4096 mod 64) (n / 64 mod 64) (n mod 64) in
  0 <= n < 16777216 /\ m / 65536 = a /\ m / 256 mod 256 = b /\ m mod 256 = c.
Proof.
  intros Ha Hb Hc n m. subst m n. unfold quad.
  Z.to_euclidean_division_equations. lia.
Qed.

Lemma group2 (a b : Z) :
  0 <= a < 256 -> 0 <= b < 256 ->
  let n := a * 65536 + b * 256 in
  let m := quad (n / 262144) (n / 4096 mod 64) (n / 64 mod 64) 0 in
  0 <= n < 16777216 /\ m / 65536 = a /\ m / 256 mod 256 = b.
Proof.
  intros Ha Hb n m. subst m n. unfold quad.
  Z.to_euclidean_division_equations. lia.
Qed.

Lemma group1 (a : Z) :
  0 <= a < 256 ->
  let n := a * 65536 in
  let m := quad (n / 262144) (n / 4096 mod 64) 0 0 in
  0 <= n < 16777216 /\ m / 65536 = a.
Proof.
  intros Ha n m. subst m n. unfold quad.
  Z.to_euclidean_division_equations. lia.
Qed.

Lemma b64encode_nil_inv (bs : bytes) : b64encode bs = [] -> bs = [].
Proof. destruct bs as [|a [|b [|c r]]]; simpl; congruence. Qed.

Lemma decode_full_group (a b c : byte) :
  let n := byte_val a * 65536 + byte_val b * 256 + byte_val c in
  decode_full (char (n / 262144)) (char (n / 4096 mod 64))
              (char (n / 64 mod 64)) (char (n mod 64)) = Some [a; b; c].
Proof.
  intros n.
  destruct (group3 _ _ _ (byte_val_range a) (byte_val_range b)
                   (byte_val_range c)) as (Hn & Ea & Eb & Ec).
  fold n in Hn, Ea, Eb, Ec.
  destruct (sextets_range n Hn) as (H0 & H1 & H2 & H3).
  unfold decode_full.
  rewrite ?index_char by assumption. simpl.
  rewrite Ea, Eb, Ec, !byte_of_val. reflexivity.
Qed.

Lemma decode_last_group3 (a b c : byte) :
  let n := byte_val a * 65536 + byte_val b * 256 + byte_val c in
  decode_last (char (n / 262144)) (char (n / 4096 mod 64))
              (char (n / 64 mod 64)) (char (n mod 64)) = Some [a; b; c].
Proof.
  intros n.
  destruct (group3 _ _ _ (byte_val_range a) (byte_val_range b)
                   (byte_val_range c)) as (Hn & Ea & Eb & Ec).
  fold n in Hn, Ea, Eb, Ec.
  destruct (sextets_range n Hn) as (H0 & H1 & H2 & H3).
  unfold decode_last.
  rewrite ?index_char by assumption. simpl.
  rewrite ?char_not_pad by assumption.
  rewrite ?index_char by assumption. simpl.
  rewrite Ea, Eb, Ec, !byte_of_val. reflexivity.
Qed.

Lemma decode_last_group2 (a b : byte) :
  let n := byte_val a * 65536 + byte_val b * 256 in
  decode_last (char (n / 262144)) (char (n / 4096 mod 64))
              (char (n / 64 mod 64)) pad = Some [a; b].
Proof.
  intros n.
  destruct (group2 _ _ (byte_val_range a) (byte_val_range b))
    as (Hn & Ea & Eb).
  fold n in Hn, Ea, Eb.
  destruct (sextets_range n Hn) as (H0 & H1 & H2 & H3).
  unfold decode_last.
  rewrite ?index_char by assumption. simpl.
  rewrite ?char_not_pad by assumption.
  rewrite ?index_char by assumption. simpl.
  rewrite Ea, Eb, !byte_of_val. reflexivity.
Qed.

Lemma decode_last_group1 (a : byte) :
  let n := byte_val a * 65536 in
  decode_last (char (n / 262144)) (char (n / 4096 mod 64)) pad pad
  = Some [a].
Proof.
  intros n.
  destruct (group1 _ (byte_val_range a)) as (Hn & Ea).
  fold n in Hn, Ea.
  destruct (sextets_range n Hn) as (H0 & H1 & H2 & H3).
  unfold decode_last.
  rewrite ?index_char by assumption. simpl.
  rewrite Ea, byte_of_val. reflexivity.
Qed.

(** Decoding undoes encoding on every byte string. *)
Lemma decode_bytes_b64encode (bs : bytes) :
  decode_bytes (b64encode bs) = Some bs.
Proof.
  induction bs as [|a|a b|a b c rest IH] using list_ind3.
  - reflexivity.
  - apply decode_last_group1.
  - apply decode_last_group2.
  - change (b64encode (a :: b :: c :: rest)) with
      (let n := byte_val a * 65536 + byte_val b * 256 + byte_val c in
       char (n / 262144) :: char (n / 4096 mod 64) :: char (n / 64 mod 64)
         :: char (n mod 64) :: b64encode rest).
    cbv zeta. cbn [decode_bytes].
    destruct (b64encode rest) as [|x xs] eqn:E.
    + apply b64encode_nil_inv in E. subst rest. apply decode_last_group3.
    + rewrite decode_full_group. cbn [mbind option_bind].
      rewrite IH. reflexivity.
Qed.

(** The encoder only emits ASCII, so the text survives
    [.decode("utf-8")] and [.encode("ascii")] unchanged. *)
Lemma char_ascii (i : Z) : byte_val (char i) < 128.
Proof.
  unfold char.
  assert (H : Forall (fun b => byte_val b < 128) (pad :: alphabet)).
  { repeat constructor. }
  rewrite Forall_forall in H. apply H, list_elem_of_In.
  destruct (nth_in_or_default (Z.to_nat i) alphabet pad) as [Hin | ->].
  - right. exact Hin.
  - left. reflexivity.
Qed.

Lemma b64encode_ascii (bs : bytes) :
  Forall (fun b => byte_val b < 128) (b64encode bs).
Proof.
  induction bs as [|a|a b|a b c rest IH] using list_ind3;
    repeat first [ exact IH | constructor | apply char_ascii ];
    reflexivity.
Qed.

Lemma utf8_decode_ascii (bs : bytes) :
  Forall (fun b => byte_val b < 128) bs ->
  utf8_decode bs = Some (Byte.to_N <$> bs).
Proof.
  induction 1 as [|b bs Hb _ IH]; [reflexivity|].
  cbn [utf8_decode]. apply Z.ltb_lt in Hb. rewrite Hb, IH. reflexivity.
Qed.

Lemma ascii_encode_ascii (bs : bytes) :
  Forall (fun b => byte_val b < 128) bs ->
  ascii_encode (Byte.to_N <$> bs) = Some bs.
Proof.
  induction 1 as [|b bs Hb _ IH]; [reflexivity|].
  assert (Hlt : (Byte.to_N b <? 128)%N = true).
  { apply N.ltb_lt. unfold byte_val in Hb. lia. }
  rewrite fmap_cons. cbn [ascii_encode].
  rewrite Hlt, Byte.of_to_N, IH. reflexivity.
Qed.

End Base64Round.

(** ** Running the client *)

Section ClientFacts.
Import WahaClient.

(** Obtaining the [httpx] client never fails, sends nothing, and leaves
    the rest of the world alone. *)
Lemma get_client_inv (w w1 : World) (r : Result AsyncClient) :
  _get_client w = (r, w1) ->
  (exists h, r = Ok h) /\ wire w1 = wire w /\ upstream w1 = upstream w /\
  fs w1 = fs w /\ clock w1 = clock w /\
  base_url (waha_client w1) = base_url (waha_client w).
Proof.
  unfold _get_client. intros E.
  destruct (http_client (waha_client w)) as [h|];
    [destruct (is_closed h)|]; inversion E; subst; cbn; eauto 10.
Qed.

Lemma try_except_reraise {A} (m : M A) (w : World) :
  try_except m (fun e => raise e) w = m w.
Proof.
  unfold try_except, raise. destruct (m w) as [[a|e] w']; reflexivity.
Qed.

Lemma request_wire (req : Request) (w : World) :
  wire (snd (request req w)) = wire w ++ [req].
Proof. unfold request. destruct (upstream w req); reflexivity. Qed.

End ClientFacts.

Lemma get_client_ready (w : World) :
  exists h, WahaClient._get_client w = (Ok h, ready w).
Proof.
  unfold ready. destruct (WahaClient._get_client w) as [r w1] eqn:E.
  destruct (get_client_inv _ _ _ E) as ((h & ->) & _). eauto.
Qed.

Lemma ready_wire w : wire (ready w) = wire w.
Proof.
  unfold ready. destruct (WahaClient._get_client w) as [r w1] eqn:E.
  apply get_client_inv in E. tauto.
Qed.

Lemma ready_upstream w : upstream (ready w) = upstream w.
Proof.
  unfold ready. destruct (WahaClient._get_client w) as [r w1] eqn:E.
  apply get_client_inv in E. tauto.
Qed.

Lemma ready_fs w : fs (ready w) = fs w.
Proof.
  unfold ready. destruct (WahaClient._get_client w) as [r w1] eqn:E.
  apply get_client_inv in E. tauto.
Qed.

Lemma ready_clock w : clock (ready w) = clock w.
Proof.
  unfold ready. destruct (WahaClient._get_client w) as [r w1] eqn:E.
  apply get_client_inv in E. tauto.
Qed.

Lemma ready_base_url w :
  base_url (waha_client (ready w)) = base_url (waha_client w).
Proof.
  unfold ready. destruct (WahaClient._get_client w) as [r w1] eqn:E.
  apply get_client_inv in E. tauto.
Qed.

(** Unfolds the monadic plumbing of a method body. *)
Ltac run_body :=
  unfold bind, ret, raise, lift, self_base_url, utcnow; cbn beta iota.

Ltac with_client w :=
  let h := fresh "h" in
  let E := fresh "Eclient" in
  destruct (get_client_ready w) as [h E];
  rewrite ?try_except_reraise; run_body; rewrite E; cbn beta iota.

(** ** [send_file] *)

Lemma send_file_no_content (session_name chat_id : str)
  (file_url caption filename : option str) (w : World) :
  WahaClient.truthy_opt_str file_url = false ->
  forall c, WahaClient.truthy_opt_bytes c = false ->
  WahaClient.send_file session_name chat_id None c file_url caption
    filename w = (Raise missing_source, ready w).
Proof.
  intros Hurl c Hc. unfold WahaClient.send_file.
  with_client w. rewrite Hc, Hurl. reflexivity.
Qed.


(** C5. With [file_path], [file_content] and [file_url] all absent,
    [send_file] raises the [ValueError] of its last branch and sends no
    request: the wire is as it was. *)
Theorem send_file_requires_a_source (session_name chat_id : str)
  (caption filename : option str) (w : World) :
  fst (WahaClient.send_file session_name chat_id None None None caption
         filename w) = Raise missing_source /\
  wire (snd (WahaClient.send_file session_name chat_id None None None caption
               filename w)) = wire w.
Proof.
  rewrite (send_file_no_content session_name chat_id None caption filename w
             eq_refl None eq_refl).
  split; [reflexivity | apply ready_wire].
Qed.

Lemma truthy_opt_str_spec (o : option str) :
  WahaClient.truthy_opt_str o = true <-> exists c, o = Some c /\ c <> [].
Proof.
  destruct o as [[|x s]|]; cbn; split; intros H; try discriminate.
  - destruct H as (c & [= <-] & Hc). congruence.
  - exists (x :: s). split; [reflexivity | discriminate].
  - reflexivity.
  - destruct H as (c & [=] & _).
Qed.

(** The form fields of the content branch. *)
Lemma form_data_fields (chat_id : str) (caption : option str) :
  let data : gmap str str :=
    if WahaClient.truthy_opt_str caption
    then <[py "caption" := default [] caption]> {[ py "chatId" := chat_id ]}
    else {[ py "chatId" := chat_id ]} in
  data !! py "chatId" = Some chat_id /\
  (is_Some (data !! py "caption") <-> exists t, caption = Some t /\ t <> []).
Proof.
  cbv zeta. rewrite <- truthy_opt_str_spec.
  destruct (WahaClient.truthy_opt_str caption).
  - split.
    + rewrite lookup_insert_ne by (vm_compute; congruence).
      apply lookup_singleton_eq.
    + rewrite lookup_insert_eq. split; eauto.
  - split.
    + apply lookup_singleton_eq.
    + rewrite lookup_singleton_ne by (vm_compute; congruence).
      split; [intros [? [=]] | discriminate].
Qed.

(** Checking the status and decoding the body send nothing. *)
Lemma decode_response_wire (r : Response) (w : World) :
  wire (snd (bind (raise_for_status r) (fun _ => response_json r) w))
  = wire w.
Proof.
  unfold bind, raise_for_status, response_json, ret, raise.
  destruct (is_success r); [destruct (json r)|]; reflexivity.
Qed.

(** A request followed by the usual epilogue puts exactly that request on
    the wire, whatever the outcome. *)
Lemma exchange_wire (req : Request) (w : World) :
  wire (snd (bind (request req)
               (fun r => bind (raise_for_status r)
                           (fun _ => response_json r)) w))
  = wire w ++ [req].
Proof.
  pose proof (request_wire req w) as Hw. unfold bind at 1.
  destruct (request req w) as [[r|e] w1]; cbn in Hw |- *.
  - rewrite decode_response_wire. exact Hw.
  - exact Hw.
Qed.

(** The content branch: what [send_file] sends when the bytes in effect
    are non-empty. *)
Lemma send_file_content_request (session_name chat_id : str)
  (file_path : option Path) (file_content : option bytes)
  (file_url caption filename : option str) (w : World) (c : bytes) :
  match file_path with
  | Some p => fs w !! path_str p
  | None => file_content
  end = Some c ->
  c <> [] ->
  exists data : gmap str str,
    wire (snd (WahaClient.send_file session_name chat_id file_path
                 file_content file_url caption filename w))
    = wire w ++ [ {| method := POST;
                     url := send_file_url w session_name;
                     body := MultipartBody
                       {[ py "file" := (str_or filename (py "file"), c) ]}
                       data |} ] /\
    data !! py "chatId" = Some chat_id /\
    (is_Some (data !! py "caption") <-> exists t, caption = Some t /\ t <> []).
Proof.
  intros Hc Hne. unfold WahaClient.send_file.
  destruct (get_client_ready w) as [h E].
  rewrite try_except_reraise. unfold bind at 1. rewrite E.
  assert (Hread :
    match file_path with
    | Some p => bind (read_file p) (fun c => ret (Some c))
    | None => ret file_content
    end (ready w) = (Ok (Some c), ready w)).
  { destruct file_path as [p|]; [|rewrite Hc; reflexivity].
    unfold bind, read_file, ret. rewrite ready_fs, Hc. reflexivity. }
  unfold bind at 1. rewrite Hread.
  unfold bind at 1, self_base_url. cbn beta iota.
  assert (Ht : WahaClient.truthy_opt_bytes (Some c) = true)
    by (destruct c; [congruence | reflexivity]).
  rewrite Ht. cbn [default from_option id].
  unfold client_post_files. rewrite exchange_wire, ready_wire.
  unfold send_file_url. rewrite ready_base_url.
  eexists. split; [reflexivity|]. apply form_data_fields.
Qed.

(** C9, for non-empty bytes. Whenever the bytes in effect (those read from
    [file_path] when a path is given, [file_content] otherwise) are
    non-empty, [send_file] issues exactly one request, encoded as multipart
    form data with a file part named [file], and the [caption] form field is
    present if and only if the caption is a non-empty string. *)
Theorem send_file_bytes_multipart (session_name chat_id : str)
  (file_path : option Path) (file_content : option bytes)
  (file_url caption filename : option str) (w : World) (c : bytes) :
  match file_path with
  | Some p => fs w !! path_str p
  | None => file_content
  end = Some c ->
  c <> [] ->
  sends_multipart caption w
    (snd (WahaClient.send_file session_name chat_id file_path file_content
            file_url caption filename w)).
Proof.
  intros Hc Hne.
  destruct (send_file_content_request session_name chat_id file_path
              file_content file_url caption filename w c Hc Hne)
    as (data & Hw & _ & Hcap).
  eexists. split; [exact Hw|].
  unfold multipart_with_file. cbn [body]. split; [|exact Hcap].
  rewrite lookup_singleton_eq. eauto.
Qed.

Lemma send_file_bytes_multipart_witness :
  sends_multipart (Some (py "hello"))
    (sample_world (answers (json_response 200 sent_m1)))
    (snd (WahaClient.send_file (py "s1") (py "123") None (Some (pyb "abc"))
            None (Some (py "hello")) None
            (sample_world (answers (json_response 200 sent_m1))))).
Proof.
  apply (send_file_bytes_multipart (py "s1") (py "123") None
           (Some (pyb "abc")) None (Some (py "hello")) None
           (sample_world (answers (json_response 200 sent_m1))) (pyb "abc")).
  - reflexivity.
  - discriminate.
Defined.

(** C9 does not extend to byte content that is supplied but empty: nothing
    is sent at all. *)
Lemma send_file_empty_bytes_not_multipart :
  ~ sends_multipart None
      (sample_world (answers (json_response 200 sent_m1)))
      (snd (WahaClient.send_file (py "s1") (py "123") None (Some []) None
              None None
              (sample_world (answers (json_response 200 sent_m1))))).
Proof.
  intros (req & Hw & _). vm_compute in Hw. discriminate Hw.
Qed.

(** The URL branch, and the failure when nothing is truthy. *)
Lemma send_file_falsy_content_wire (session_name chat_id : str)
  (file_content : option bytes) (file_url caption filename : option str)
  (w : World) :
  WahaClient.truthy_opt_bytes file_content = false ->
  wire (snd (WahaClient.send_file session_name chat_id None file_content
               file_url caption filename w))
  = wire w ++ (if WahaClient.truthy_opt_str file_url
               then [url_request w session_name chat_id file_url caption
                       filename]
               else []).
Proof.
  intros Hc.
  destruct (WahaClient.truthy_opt_str file_url) eqn:Hurl.
  - unfold WahaClient.send_file.
    destruct (get_client_ready w) as [h E].
    rewrite try_except_reraise. unfold bind at 1. rewrite E.
    unfold bind at 1, ret at 1. unfold bind at 1, self_base_url.
    cbn beta iota. rewrite Hc, Hurl.
    unfold client_post_json. rewrite exchange_wire, ready_wire.
    unfold url_request, send_file_url. rewrite ready_base_url. reflexivity.
  - rewrite (send_file_no_content session_name chat_id file_url caption
               filename w Hurl file_content Hc).
    cbn [snd]. rewrite ready_wire, app_nil_r. reflexivity.
Qed.

(** A path makes [send_file] forget the content it was given. *)
Lemma send_file_path_overrides (session_name chat_id : str) (p : Path)
  (x : option bytes) (file_url caption filename : option str) (w : World) :
  WahaClient.send_file session_name chat_id (Some p) x file_url caption
    filename w
  = WahaClient.send_file session_name chat_id (Some p) None file_url caption
      filename w.
Proof. reflexivity. Qed.

(** C10. The sources of [send_file] are told apart by truthiness.  With no
    path and the empty byte string as content, the content branch is
    skipped: the only request that can go out is the JSON request of the
    URL branch, for a truthy [file_url], and otherwise the call raises the
    validation error and sends nothing; no multipart request is sent.  With
    a path, the supplied content is ignored, and the bytes read from the
    path are the ones sent. *)
Theorem send_file_sources_by_truthiness :
  (forall session_name chat_id file_url caption filename w,
     let out := WahaClient.send_file session_name chat_id None (Some [])
                  file_url caption filename w in
     wire (snd out)
     = wire w ++ (if WahaClient.truthy_opt_str file_url
                  then [url_request w session_name chat_id file_url caption
                          filename]
                  else []) /\
     is_multipart (url_request w session_name chat_id file_url caption
                     filename) = false /\
     (WahaClient.truthy_opt_str file_url = false ->
      fst out = Raise missing_source)) /\
  (forall session_name chat_id p x file_url caption filename w,
     WahaClient.send_file session_name chat_id (Some p) (Some x) file_url
       caption filename w
     = WahaClient.send_file session_name chat_id (Some p) None file_url
         caption filename w) /\
  (forall session_name chat_id p x file_url caption filename w d,
     fs w !! path_str p = Some d -> d <> [] ->
     exists data,
       wire (snd (WahaClient.send_file session_name chat_id (Some p)
                    (Some x) file_url caption filename w))
       = wire w ++ [ {| method := POST;
                        url := send_file_url w session_name;
                        body := MultipartBody
                          {[ py "file" := (str_or filename (py "file"), d) ]}
                          data |} ]).
Proof.
  split; [|split].
  - intros session_name chat_id file_url caption filename w out.
    split; [|split].
    + apply send_file_falsy_content_wire. reflexivity.
    + reflexivity.
    + intros Hurl. subst out.
      rewrite (send_file_no_content session_name chat_id file_url caption
                 filename w Hurl (Some []) eq_refl).
      reflexivity.
  - intros. apply send_file_path_overrides.
  - intros session_name chat_id p x file_url caption filename w d Hd Hne.
    destruct (send_file_content_request session_name chat_id (Some p)
                (Some x) file_url caption filename w d Hd Hne)
      as (data & Hw & _).
    exists data. exact Hw.
Qed.

Lemma send_file_sources_by_truthiness_witness :
  fst (WahaClient.send_file (py "s1") (py "123") None (Some []) (Some [])
         None None (sample_world (answers (json_response 200 sent_m1))))
  = Raise missing_source /\
  exists data,
    wire (snd (WahaClient.send_file (py "s1") (py "123")
                 (Some {| path_str := py "/tmp/a.bin" |}) (Some (pyb "zz"))
                 None None None
                 (sample_world (answers (json_response 200 sent_m1)))))
    = [ {| method := POST;
           url := py "http://localhost:3000/api/sessions/s1/send/file";
           body := MultipartBody {[ py "file" := (py "file", pyb "abc") ]}
                     data |} ].
Proof.
  split.
  - apply (proj1 send_file_sources_by_truthiness (py "s1") (py "123")
             (Some []) None None
             (sample_world (answers (json_response 200 sent_m1)))).
    reflexivity.
  - apply (proj2 (proj2 send_file_sources_by_truthiness) (py "s1") (py "123")
             {| path_str := py "/tmp/a.bin" |} (pyb "zz") None None None
             (sample_world (answers (json_response 200 sent_m1)))
             (pyb "abc")).
    + reflexivity.
    + discriminate.
Defined.

(** ** Sessions *)

Lemma status_tail_wire (rt : Runtime) (r : Response) (w : World) :
  wire (snd ((if status_code r =? 404 then ret None
              else bind (raise_for_status r) (fun _ =>
                   bind (response_json r) (fun data =>
                   bind (lift (WahaSession_from rt data)) (fun session =>
                   ret (Some session))))) w)) = wire w.
Proof.
  destruct (status_code r =? 404); [reflexivity|].
  unfold bind, raise_for_status, response_json, lift, ret, raise.
  destruct (is_success r); [|reflexivity].
  destruct (json r) as [data|]; [|reflexivity].
  destruct (WahaSession_from rt data); reflexivity.
Qed.

(** The status lookup sends exactly one request, the one for that name. *)
Lemma get_session_status_wire (rt : Runtime) (session_name : str) (w : World) :
  wire (snd (WahaClient.get_session_status rt session_name w))
  = wire w ++ [status_request w session_name].
Proof.
  unfold WahaClient.get_session_status.
  destruct (get_client_ready w) as [h E].
  rewrite try_except_reraise. unfold bind at 1. rewrite E.
  unfold bind at 1, self_base_url. unfold bind at 1, client_get.
  set (req := Build_Request _ _ _).
  pose proof (request_wire req (ready w)) as Hw.
  destruct (request req (ready w)) as [[r|e] w1]; cbn in Hw.
  - rewrite status_tail_wire, Hw, ready_wire. subst req.
    unfold status_request. rewrite ready_base_url. reflexivity.
  - cbn. rewrite Hw, ready_wire. subst req.
    unfold status_request. rewrite ready_base_url. reflexivity.
Qed.

(** A 404 answer is turned into [None]. *)
Lemma get_session_status_404 (rt : Runtime) (session_name : str) (w : World)
  (r : Response) :
  upstream w (status_request w session_name) = Responded r ->
  status_code r = 404 ->
  WahaClient.get_session_status rt session_name w
  = (Ok None, log_request (status_request w session_name) (ready w)).
Proof.
  intros Hup H404. unfold WahaClient.get_session_status.
  destruct (get_client_ready w) as [h E].
  rewrite try_except_reraise. unfold bind at 1. rewrite E.
  unfold bind at 1, self_base_url. unfold bind at 1, client_get, request.
  unfold status_request in Hup.
  rewrite ready_upstream, ready_base_url, Hup, H404. reflexivity.
Qed.

(** C3. When the upstream answers the status request for a name with 404,
    [SessionController.get_session_status] returns, without raising, the
    synthetic record: id and name equal to the requested name, status
    [NOT_FOUND], not connected, no phone. *)
Theorem get_session_status_not_found (rt : Runtime) (session_name : str)
  (w : World) (r : Response) :
  upstream w (status_request w session_name) = Responded r ->
  status_code r = 404 ->
  fst (SessionController.get_session_status rt session_name w)
  = Ok (not_found_status session_name).
Proof.
  intros Hup H404. unfold SessionController.get_session_status.
  unfold bind at 1.
  rewrite (get_session_status_404 rt session_name w r Hup H404).
  reflexivity.
Qed.

Lemma get_session_status_not_found_witness :
  fst (SessionController.get_session_status sample_runtime (py "ghost")
         (sample_world (answers (json_response 404 VNone))))
  = Ok (not_found_status (py "ghost")).
Proof.
  apply (get_session_status_not_found sample_runtime (py "ghost")
           (sample_world (answers (json_response 404 VNone)))
           (json_response 404 VNone)).
  - reflexivity.
  - reflexivity.
Defined.

(** The three statuses are their own upper-case form. *)
Lemma upper_connected_status (rt : Runtime) (t : str) :
  t ∈ connected_statuses -> upper rt t = t.
Proof.
  unfold connected_statuses. intros H.
  repeat (apply elem_of_cons in H as [-> | H]; [reflexivity|]).
  inversion H.
Qed.

Lemma connected_iff (rt : Runtime) (status : str) :
  bool_decide (upper rt status ∈ connected_statuses) = true <->
  exists t, t ∈ connected_statuses /\ same_ignoring_case rt status t.
Proof.
  rewrite bool_decide_eq_true. unfold same_ignoring_case. split.
  - intros H. exists (upper rt status). split; [exact H|].
    symmetry. apply upper_connected_status, H.
  - intros (t & Ht & E). rewrite E, (upper_connected_status rt t Ht).
    exact Ht.
Qed.

(** C4. Whatever the status lookup returns, [check_connection] returns the
    record [{"connected": b}], where [b] is true exactly when a session
    was found and its status equals one of STARTED, CONNECTED, READY up to
    case. *)
Theorem check_connection_iff (rt : Runtime) (session_name : str) (w w' : World)
  (found : option WahaSession.t) :
  WahaClient.get_session_status rt session_name w = (Ok found, w') ->
  exists b : bool,
    SessionController.check_connection rt session_name w
    = (Ok {[ py "connected" := VBool b ]}, w') /\
    (b = true <->
     exists s t, found = Some s /\ t ∈ connected_statuses /\
                 same_ignoring_case rt (WahaSession.status s) t).
Proof.
  intros Hst. unfold SessionController.check_connection.
  unfold bind at 1. rewrite Hst. unfold ret.
  eexists. split; [reflexivity|].
  destruct found as [s|].
  - rewrite connected_iff. split.
    + intros (t & Ht & E). eauto.
    + intros (s' & t & [= <-] & Ht & E). eauto.
  - split; [discriminate|]. intros (s & t & [=] & _).
Qed.

Lemma check_connection_iff_witness :
  SessionController.check_connection sample_runtime (py "s1")
    (sample_world (answers (json_response 200
                              (session_json "s1" "s1" "Started"))))
  = (Ok {[ py "connected" := VBool true ]},
     snd (WahaClient.get_session_status sample_runtime (py "s1")
            (sample_world (answers (json_response 200
                              (session_json "s1" "s1" "Started")))))).
Proof.
  destruct (check_connection_iff sample_runtime (py "s1")
              (sample_world (answers (json_response 200
                                (session_json "s1" "s1" "Started"))))
              (snd (WahaClient.get_session_status sample_runtime (py "s1")
                 (sample_world (answers (json_response 200
                                (session_json "s1" "s1" "Started"))))))
              (Some {| WahaSession.id := py "s1"; WahaSession.name := py "s1";
                       WahaSession.status := py "Started";
                       WahaSession.config := ∅;
                       WahaSession.created_at := None;
                       WahaSession.updated_at := None |}))
    as (b & Hb & Hiff).
  - vm_compute. reflexivity.
  - assert (Ht : b = true).
    { apply Hiff. eexists _, (py "STARTED").
      split; [reflexivity|]. split; [apply list_elem_of_here|].
      vm_compute. reflexivity. }
    rewrite Ht in Hb. exact Hb.
Defined.

(** C2. [list_sessions] asks for the status of the session named by the
    empty string.  When that session is absent the result is the empty
    list.  When it is found, reading the attribute [session] of the
    [WahaSession] raises [AttributeError]: no one-element list is
    returned. *)
Theorem list_sessions_found_raises (rt : Runtime) (w : World) :
  wire (snd (SessionController.list_sessions rt w))
  = wire w ++ [status_request w []] /\
  (forall w',
     WahaClient.get_session_status rt [] w = (Ok None, w') ->
     SessionController.list_sessions rt w = (Ok [], w')) /\
  (forall s w',
     WahaClient.get_session_status rt [] w = (Ok (Some s), w') ->
     SessionController.list_sessions rt w
     = (Raise (AttributeError (py "WahaSession") (py "session")), w')).
Proof.
  unfold SessionController.list_sessions. split; [|split].
  - pose proof (get_session_status_wire rt [] w) as Hw.
    unfold bind at 1.
    destruct (WahaClient.get_session_status rt [] w) as [[[s|]|e] w1];
      cbn in Hw |- *; exact Hw.
  - intros w' E. unfold bind at 1. rewrite E. reflexivity.
  - intros s w' E. unfold bind at 1. rewrite E. reflexivity.
Qed.

Lemma list_sessions_found_raises_witness :
  fst (SessionController.list_sessions sample_runtime
         (sample_world (answers (json_response 200
                                   (session_json "s1" "s1" "STARTED")))))
  = Raise (AttributeError (py "WahaSession") (py "session")).
Proof.
  rewrite (proj2 (proj2 (list_sessions_found_raises sample_runtime
             (sample_world (answers (json_response 200
                                       (session_json "s1" "s1" "STARTED"))))))
             {| WahaSession.id := py "s1"; WahaSession.name := py "s1";
                WahaSession.status := py "STARTED";
                WahaSession.config := ∅;
                WahaSession.created_at := None;
                WahaSession.updated_at := None |}
             (snd (WahaClient.get_session_status sample_runtime []
                (sample_world (answers (json_response 200
                                   (session_json "s1" "s1" "STARTED"))))))).
  - reflexivity.
  - vm_compute. reflexivity.
Defined.

(** ** Messages *)

(** A [MessageResponse] cannot be built without a [timestamp]. *)
Lemma MessageResponse_needs_timestamp (rt : Runtime)
  (id chat_id status : option Value) :
  exists errors,
    MessageResponse_init rt id chat_id status None
    = Raise (ValidationError (py "MessageResponse") errors) /\
    (py "timestamp", py "missing") ∈ errors.
Proof.
  unfold MessageResponse_init, Validate.finish.
  destruct (Validate.ap _ (Validate.required_str "status" status))
    as [e|f] eqn:E; cbn.
  - eexists. split; [reflexivity|]. apply elem_of_app. right.
    apply list_elem_of_here.
  - eexists. split; [reflexivity|]. apply list_elem_of_here.
Qed.

(** Whatever the upstream does, the controller never returns a
    [MessageResponse]. *)
Lemma send_message_never_returns (rt : Runtime)
  (session_name chat_id message : str) (quoted : option str) (w : World) :
  exists e,
    fst (MessageController.send_message rt session_name chat_id message
           quoted w) = Raise e.
Proof.
  unfold MessageController.send_message. unfold bind at 1.
  destruct (WahaClient.send_message _ _ _ _ w) as [[result|e] w1];
    [|cbn; eauto].
  unfold bind at 1, lift at 1.
  destruct (dict_get result (py "id") _) as [id|e]; [|cbn; eauto].
  unfold bind at 1, lift at 1.
  destruct (dict_get result (py "status") _) as [st|e]; [|cbn; eauto].
  destruct (MessageResponse_needs_timestamp rt (Some id)
              (Some (VStr chat_id)) (Some st)) as (errors & E & _).
  unfold lift. rewrite E. cbn. eauto.
Qed.

(** C1. In the send-text scenario, with the upstream returning
    [{"id": "m1", "status": "sent"}], the controller does not return a
    [MessageResponse]: building it fails for want of the required
    [timestamp], and the route replies 500 instead of 200. *)
Theorem send_message_scenario_fails (rt : Runtime)
  (session_name chat_id message : str) (quoted : option str)
  (w w' : World) :
  WahaClient.send_message session_name chat_id message quoted w
  = (Ok sent_m1, w') ->
  MessageController.send_message rt session_name chat_id message quoted w
  = (Raise timestamp_missing, w') /\
  Routes.POST_messages_send rt session_name chat_id message quoted w
  = (Failure 500
       {[ py "detail" := VStr (exception_str rt timestamp_missing) ]}, w').
Proof.
  intros Hup.
  assert (Hc : MessageController.send_message rt session_name chat_id
                 message quoted w = (Raise timestamp_missing, w')).
  { unfold MessageController.send_message. unfold bind at 1.
    rewrite Hup. reflexivity. }
  split; [exact Hc|].
  unfold Routes.POST_messages_send, serve, Routes.send_message, try_except.
  rewrite Hc. reflexivity.
Qed.

Lemma send_message_scenario_fails_witness :
  fst (MessageController.send_message sample_runtime (py "s1") (py "123")
         (py "hi") None (sample_world (answers (json_response 200 sent_m1))))
  = Raise timestamp_missing /\
  fst (Routes.POST_messages_send sample_runtime (py "s1") (py "123")
         (py "hi") None (sample_world (answers (json_response 200 sent_m1))))
  = Failure 500
      {[ py "detail" := VStr (py "validation error for MessageResponse") ]}.
Proof.
  destruct (send_message_scenario_fails sample_runtime (py "s1") (py "123")
              (py "hi") None
              (sample_world (answers (json_response 200 sent_m1)))
              (snd (WahaClient.send_message (py "s1") (py "123") (py "hi")
                      None
                      (sample_world (answers (json_response 200 sent_m1))))))
    as [Hc Hs].
  - vm_compute. reflexivity.
  - rewrite Hc, Hs. split; reflexivity.
Defined.

(** ** Groups *)

Lemma groups_tail_wire (rt : Runtime) (r : Response) (w : World) :
  wire (snd (bind (raise_for_status r) (fun _ =>
             bind (response_json r) (fun groups_data =>
             bind (lift (iterate groups_data)) (fun items =>
             lift (traverse (WahaGroup_from rt) items)))) w)) = wire w.
Proof.
  unfold bind, raise_for_status, response_json, lift, ret, raise.
  destruct (is_success r); [|reflexivity].
  destruct (json r) as [data|]; [|reflexivity].
  destruct (iterate data); reflexivity.
Qed.

(** Listing the groups sends exactly one request: the list fetch. *)
Lemma get_groups_wire (rt : Runtime) (session_name : str) (w : World) :
  wire (snd (WahaClient.get_groups rt session_name w))
  = wire w ++ [groups_request w session_name].
Proof.
  unfold WahaClient.get_groups.
  destruct (get_client_ready w) as [h E].
  rewrite try_except_reraise. unfold bind at 1. rewrite E.
  unfold bind at 1, self_base_url. unfold bind at 1, client_get.
  set (req := Build_Request _ _ _).
  pose proof (request_wire req (ready w)) as Hw.
  destruct (request req (ready w)) as [[r|e] w1]; cbn in Hw.
  - rewrite groups_tail_wire, Hw, ready_wire. subst req.
    unfold groups_request. rewrite ready_base_url. reflexivity.
  - cbn. rewrite Hw, ready_wire. subst req.
    unfold groups_request. rewrite ready_base_url. reflexivity.
Qed.

(** The scan falls through to the sentinel when no id matches. *)
Lemma scan_absent (groups : list WahaGroup.t) (group_id : str) :
  group_id ∉ (WahaGroup.id <$> groups) ->
  GroupController.scan groups group_id = group_not_found.
Proof.
  induction groups as [|g groups IH]; intros Hnot; [reflexivity|].
  cbn [GroupController.scan].
  rewrite fmap_cons, not_elem_of_cons in Hnot. destruct Hnot as [Hne Hrest].
  destruct (decide (WahaGroup.id g = group_id)) as [Heq|_].
  - congruence.
  - apply IH, Hrest.
Qed.

(** C6. When the id is not among the groups the list fetch returned,
    [get_group_details] returns the record [{"error": "Group not found"}]
    rather than raising, and the only request that went out is the list
    fetch. *)
Theorem get_group_details_absent (rt : Runtime) (session_name group_id : str)
  (w w' : World) (groups : list WahaGroup.t) :
  WahaClient.get_groups rt session_name w = (Ok groups, w') ->
  group_id ∉ (WahaGroup.id <$> groups) ->
  GroupController.get_group_details rt session_name group_id w
  = (Ok group_not_found, w') /\
  wire w' = wire w ++ [groups_request w session_name].
Proof.
  intros Hg Hnot. split.
  - unfold GroupController.get_group_details. unfold bind at 1.
    rewrite Hg. unfold ret. rewrite (scan_absent groups group_id Hnot).
    reflexivity.
  - pose proof (get_groups_wire rt session_name w) as Hw.
    rewrite Hg in Hw. exact Hw.
Qed.

Lemma get_group_details_absent_witness :
  fst (GroupController.get_group_details sample_runtime (py "s1") (py "g2")
         (sample_world (answers (json_response 200
                                   (VList [group_json "g1" "Friends"])))))
  = Ok group_not_found.
Proof.
  destruct (get_group_details_absent sample_runtime (py "s1") (py "g2")
              (sample_world (answers (json_response 200
                                        (VList [group_json "g1" "Friends"]))))
              (snd (WahaClient.get_groups sample_runtime (py "s1")
                 (sample_world (answers (json_response 200
                                        (VList [group_json "g1" "Friends"]))))))
              [ {| WahaGroup.id := py "g1"; WahaGroup.name := py "Friends";
                   WahaGroup.description := None;
                   WahaGroup.participants := [];
                   WahaGroup.created_at := None |} ])
    as [Hd _].
  - vm_compute. reflexivity.
  - vm_compute. intros H. apply list_elem_of_singleton in H. discriminate H.
  - rewrite Hd. reflexivity.
Defined.

(** ** Files *)

(** Decoding the text [download_file] produces gives the bytes back. *)
Lemma b64_text_roundtrip (data : bytes) :
  exists text,
    utf8_decode (Base64.b64encode data) = Some text /\
    Base64.b64decode text = Some data.
Proof.
  pose proof (Base64Round.b64encode_ascii data) as Hascii.
  exists (Byte.to_N <$> Base64.b64encode data). split.
  - apply Base64Round.utf8_decode_ascii, Hascii.
  - unfold Base64.b64decode.
    rewrite (Base64Round.ascii_encode_ascii _ Hascii). cbn [mbind option_bind].
    apply Base64Round.decode_bytes_b64encode.
Qed.

(** C7. For whatever bytes the upstream download call returns,
    [FileController.download_file] returns a record whose [file] field
    base64-decodes to exactly those bytes and whose [message_id] field is
    the requested message id. *)
Theorem download_file_roundtrip (session_name message_id : str) (w w' : World)
  (data : bytes) :
  WahaClient.download_file session_name message_id w = (Ok data, w') ->
  exists (record : gmap str Value) (text : str),
    FileController.download_file session_name message_id w = (Ok record, w') /\
    record !! py "file" = Some (VStr text) /\
    Base64.b64decode text = Some data /\
    record !! py "message_id" = Some (VStr message_id).
Proof.
  intros Hd. destruct (b64_text_roundtrip data) as (text & Htext & Hback).
  unfold FileController.download_file. unfold bind at 1.
  rewrite Hd, Htext. unfold ret.
  eexists _, text. split; [reflexivity|]. split; [|split].
  - rewrite lookup_insert_ne by (vm_compute; congruence).
    apply lookup_singleton_eq.
  - exact Hback.
  - apply lookup_insert_eq.
Qed.

Lemma download_file_roundtrip_witness :
  exists (record : gmap str Value) (text : str),
    fst (FileController.download_file (py "s1") (py "m1")
           (sample_world (answers {| status_code := 200;
                                     content := pyb "hello";
                                     json := None |}))) = Ok record /\
    record !! py "file" = Some (VStr text) /\
    Base64.b64decode text = Some (pyb "hello") /\
    record !! py "message_id" = Some (VStr (py "m1")).
Proof.
  destruct (download_file_roundtrip (py "s1") (py "m1")
              (sample_world (answers {| status_code := 200;
                                        content := pyb "hello";
                                        json := None |}))
              (snd (WahaClient.download_file (py "s1") (py "m1")
                 (sample_world (answers {| status_code := 200;
                                           content := pyb "hello";
                                           json := None |}))))
              (pyb "hello"))
    as (record & text & Hrun & Hfile & Hback & Hid).
  - vm_compute. reflexivity.
  - exists record, text. rewrite Hrun. repeat split; assumption.
Defined.

(** ** Health *)

(** [ping] always returns a boolean: whether the upstream answered with a
    2xx status. *)
Lemma ping_run (w : World) :
  WahaClient.ping w
  = (Ok (reachable w), log_request (ping_request w) (ready w)).
Proof.
  unfold WahaClient.ping, try_except.
  destruct (get_client_ready w) as [h E].
  unfold bind at 1. rewrite E.
  unfold bind at 1, self_base_url. unfold bind at 1, client_get, request.
  unfold reachable, ping_request.
  rewrite ready_upstream, ready_base_url.
  destruct (upstream w _) as [r|e]; [|reflexivity].
  unfold bind, raise_for_status, ret, raise.
  destruct (is_success r); reflexivity.
Qed.

Lemma health_check_run (rt : Runtime) (w : World) :
  Routes.health_check rt w
  = (Ok {| HealthResponse.status :=
             if reachable w then py "healthy" else py "degraded";
           HealthResponse.waha_connected := reachable w;
           HealthResponse.timestamp := clock w |},
     log_request (ping_request w) (ready w)).
Proof.
  unfold Routes.health_check. unfold bind at 1. rewrite ping_run.
  unfold bind, utcnow, lift. cbn [clock log_request].
  rewrite ready_clock. reflexivity.
Qed.

(** A handler is mounted when each of its parameters either comes with
    [Depends] or is of a kind the framework reads from the request. *)
Lemma register_mounts {A} (params : list Param)
  (endpoint : World -> Reply A * World) :
  Forall (fun p => has_depends p = true \/
                   forall cls, annotation p <> PlainClass cls) params ->
  register params endpoint = Mounted endpoint.
Proof.
  intros Hall. unfold register.
  assert (Hnone : invalid_parameter params = None).
  { induction Hall as [|p rest Hp _ IH]; [reflexivity|].
    cbn [invalid_parameter]. destruct Hp as [Hd|Hk].
    - rewrite Hd. exact IH.
    - destruct (has_depends p); [exact IH|].
      destruct (annotation p) as [| | |cls]; try exact IH.
      destruct (Hk cls). reflexivity. }
  rewrite Hnone. reflexivity.
Qed.

(** C8. Whatever happens to the ping request, [ping] returns a boolean,
    false when the request fails or is answered outside 2xx, and the
    function [health_check] then returns the record [degraded], not
    connected, with the current time, which would be sent with status 200.
    But the route [GET /health] is never registered: [health_check]
    declares [waha_client: WahaClient] without [Depends], so the decorator
    refuses the handler and no request is answered by it. *)
Theorem health_route_refused (rt : Runtime) (w : World) :
  (exists b, fst (WahaClient.ping w) = Ok b) /\
  (forall e, upstream w (ping_request w) = Failed e ->
             fst (WahaClient.ping w) = Ok false) /\
  (forall r, upstream w (ping_request w) = Responded r ->
             is_success r = false ->
             fst (WahaClient.ping w) = Ok false) /\
  (fst (WahaClient.ping w) = Ok false ->
   fst (serve rt 200 (Routes.health_check rt) w)
   = Success 200 {| HealthResponse.status := py "degraded";
                    HealthResponse.waha_connected := false;
                    HealthResponse.timestamp := clock w |}) /\
  Routes.GET_health rt = Refused "waha_client" "WahaClient" /\
  (forall endpoint, Routes.GET_health rt <> Mounted endpoint).
Proof.
  unfold serve. rewrite ping_run, health_check_run. cbn [fst].
  split; [eauto|]. split; [|split; [|split; [|split]]].
  - intros e He. unfold reachable. rewrite He. reflexivity.
  - intros r Hr Hs. unfold reachable. rewrite Hr, Hs. reflexivity.
  - intros [= ->]. reflexivity.
  - reflexivity.
  - intros endpoint. discriminate.
Qed.

Lemma health_route_refused_witness :
  fst (WahaClient.ping (sample_world unreachable)) = Ok false /\
  fst (Routes.health_check sample_runtime (sample_world unreachable))
  = Ok {| HealthResponse.status := py "degraded";
          HealthResponse.waha_connected := false;
          HealthResponse.timestamp := 1700000000 |} /\
  Routes.GET_health sample_runtime = Refused "waha_client" "WahaClient".
Proof.
  pose proof (health_route_refused sample_runtime
                (sample_world unreachable))
    as (_ & Hfail & _ & Hdeg & Href & _).
  assert (Hping : fst (WahaClient.ping (sample_world unreachable)) = Ok false).
  { apply (Hfail (RequestError (py "connection refused"))). reflexivity. }
  split; [exact Hping|]. split; [|exact Href].
  specialize (Hdeg Hping). unfold serve in Hdeg.
  destruct (Routes.health_check sample_runtime (sample_world unreachable))
    as [[h|e] w1]; cbn [fst] in Hdeg |- *.
  - injection Hdeg as ->. reflexivity.
  - destruct e; discriminate Hdeg.
Defined.

(** ** The client's life cycle *)

(** X1. The [httpx] client is created lazily and then reused: the first
    call leaves an open client in the state, a second call returns that
    same client and changes nothing, and a client that is already open is
    returned as it is. *)
Theorem get_client_creates_once (w : World) :
  exists h,
    WahaClient._get_client w = (Ok h, ready w) /\
    is_closed h = false /\
    http_client (waha_client (ready w)) = Some h /\
    WahaClient._get_client (ready w) = (Ok h, ready w) /\
    (forall h0, http_client (waha_client w) = Some h0 ->
                is_closed h0 = false -> h = h0 /\ ready w = w).
Proof.
  unfold ready, WahaClient._get_client.
  destruct (http_client (waha_client w)) as [h0|] eqn:Eh;
    [destruct (is_closed h0) eqn:Ec|].
  - eexists. cbn. split; [reflexivity|]. split; [reflexivity|].
    split; [reflexivity|]. split; [reflexivity|].
    intros x [= <-] Hx. congruence.
  - exists h0. cbn. rewrite Eh, Ec.
    split; [reflexivity|]. split; [reflexivity|].
    split; [reflexivity|]. split; [reflexivity|].
    intros x [= <-] _. split; reflexivity.
  - eexists. cbn. split; [reflexivity|]. split; [reflexivity|].
    split; [reflexivity|]. split; [reflexivity|]. discriminate.
Qed.

Lemma get_client_creates_once_witness :
  exists h,
    WahaClient._get_client (ready (sample_world unreachable))
    = (Ok h, ready (sample_world unreachable)) /\
    ready (ready (sample_world unreachable)) = ready (sample_world unreachable).
Proof.
  destruct (get_client_creates_once (ready (sample_world unreachable)))
    as (h & Hrun & _ & _ & _ & Hopen).
  exists h.
  destruct (Hopen (WahaClient.new_client
                     (waha_client (sample_world unreachable))))
    as [_ Hsame]; [reflexivity | reflexivity |].
  rewrite Hsame in Hrun. split; [exact Hrun | exact Hsame].
Defined.

(** X2. A client created by [_get_client] takes its timeout from the
    [WahaClient] and carries the JSON content-type and accept headers; it
    carries [Authorization: Bearer <key>] exactly when the API key is a
    non-empty string. *)
Theorem new_client_headers (w : World) :
  http_client (waha_client w) = None ->
  exists h,
    WahaClient._get_client w = (Ok h, set_http_client (Some h) w) /\
    ac_timeout h = timeout (waha_client w) /\
    ac_headers h !! py "Content-Type" = Some (py "application/json") /\
    ac_headers h !! py "Accept" = Some (py "application/json") /\
    ac_headers h !! py "Authorization"
    = (if WahaClient.truthy_opt_str (api_key (waha_client w))
       then Some (py "Bearer " ++ default [] (api_key (waha_client w)))
       else None).
Proof.
  intros Hnone. unfold WahaClient._get_client. rewrite Hnone.
  eexists. split; [reflexivity|]. split; [reflexivity|].
  cbn [ac_headers WahaClient.new_client]. unfold WahaClient._get_headers.
  destruct (api_key (waha_client w)) as [[|c k]|];
    cbn [WahaClient.truthy_opt_str truthy_str default from_option id];
    repeat split; reflexivity.
Qed.

Lemma new_client_headers_witness :
  exists h,
    fst (WahaClient._get_client
           {| waha_client := WahaClient.__init__ sample_settings None None 30;
              upstream := unreachable; fs := ∅; clock := 0; wire := [] |})
    = Ok h /\
    ac_headers h !! py "Authorization" = Some (py "Bearer k1").
Proof.
  destruct (new_client_headers
              {| waha_client :=
                   WahaClient.__init__ sample_settings None None 30;
                 upstream := unreachable; fs := ∅; clock := 0; wire := [] |})
    as (h & Hrun & _ & _ & _ & Hauth).
  - reflexivity.
  - exists h. rewrite Hrun. split; [reflexivity | exact Hauth].
Defined.

(** X3. [close] never fails and sends nothing; on a client that was never
    initialised it changes nothing; afterwards the [WahaClient] holds no
    open [httpx] client, and closing again changes nothing. *)
Theorem close_is_safe (w : World) :
  fst (WahaClient.close w) = Ok tt /\
  wire (snd (WahaClient.close w)) = wire w /\
  (http_client (waha_client w) = None -> snd (WahaClient.close w) = w) /\
  (forall h, http_client (waha_client (snd (WahaClient.close w))) = Some h ->
             is_closed h = true) /\
  WahaClient.close (snd (WahaClient.close w))
  = (Ok tt, snd (WahaClient.close w)).
Proof.
  unfold WahaClient.close.
  destruct (http_client (waha_client w)) as [h0|] eqn:Eh;
    [destruct (is_closed h0) eqn:Ec|]; cbn [fst snd].
  - rewrite Eh, Ec.
    split; [reflexivity|]. split; [reflexivity|]. split; [reflexivity|].
    split; [|reflexivity]. intros h [= <-]. exact Ec.
  - cbn.
    split; [reflexivity|]. split; [reflexivity|]. split; [discriminate|].
    split; [discriminate | reflexivity].
  - rewrite Eh.
    split; [reflexivity|]. split; [reflexivity|]. split; [reflexivity|].
    split; [discriminate | reflexivity].
Qed.

Lemma close_is_safe_witness :
  snd (WahaClient.close (sample_world unreachable)) = sample_world unreachable.
Proof.
  apply (close_is_safe (sample_world unreachable)). reflexivity.
Defined.

(** X4. The client can be used again after [close]: the next
    [_get_client] creates a fresh open client for the same settings, and a
    [ping] issued after [close] reports what the upstream answers. *)
Theorem close_then_reopen (w : World) :
  WahaClient._get_client (snd (WahaClient.close w))
  = (Ok (WahaClient.new_client (waha_client w)),
     set_http_client (Some (WahaClient.new_client (waha_client w))) w) /\
  fst (WahaClient.ping (snd (WahaClient.close w))) = Ok (reachable w).
Proof.
  assert (Hget : WahaClient._get_client (snd (WahaClient.close w))
    = (Ok (WahaClient.new_client (waha_client w)),
       set_http_client (Some (WahaClient.new_client (waha_client w))) w)).
  { unfold WahaClient.close, WahaClient._get_client.
    destruct (http_client (waha_client w)) as [h0|] eqn:Eh;
      [destruct (is_closed h0) eqn:Ec|]; cbn.
    - rewrite Eh, Ec. reflexivity.
    - reflexivity.
    - rewrite Eh. reflexivity. }
  split; [exact Hget|].
  rewrite ping_run. cbn [fst]. f_equal.
  unfold reachable, ping_request, WahaClient.close.
  destruct (http_client (waha_client w)) as [h0|];
    [destruct (is_closed h0)|]; reflexivity.
Qed.

(** Stripping leaves no trailing character of the kind stripped, and
    removes nothing else. *)
Lemma rstrip_spec (c : N) (s : str) :
  last (rstrip c s) <> Some c /\
  exists k, s = rstrip c s ++ replicate k c.
Proof.
  induction s as [|x r [IHlast [k IHk]]]; cbn [rstrip].
  - split; [discriminate | exists 0%nat; reflexivity].
  - destruct (rstrip c r) as [|y r'] eqn:E.
    + destruct (decide (x = c)) as [->|Hne].
      * split; [discriminate|]. exists (S k). rewrite IHk. reflexivity.
      * split; [cbn; congruence|]. exists k. rewrite IHk. reflexivity.
    + split.
      * exact IHlast.
      * exists k. rewrite IHk at 1. reflexivity.
Qed.

(** X5. A [WahaClient] starts without an [httpx] client.  A non-empty
    [base_url] argument is taken verbatim, trailing slashes included;
    without one the base URL is the configured [WAHA_URL] with all its
    trailing slashes, and nothing else, removed. *)
Theorem init_base_url (settings : Settings) (base_url' api_key' : option str)
  (timeout' : Z) :
  http_client (WahaClient.__init__ settings base_url' api_key' timeout')
  = None /\
  (forall u, base_url' = Some u -> u <> [] ->
     base_url (WahaClient.__init__ settings base_url' api_key' timeout') = u)
  /\
  (WahaClient.truthy_opt_str base_url' = false ->
   last (base_url (WahaClient.__init__ settings base_url' api_key' timeout'))
   <> Some slash /\
   exists k,
     WAHA_URL settings
     = base_url (WahaClient.__init__ settings base_url' api_key' timeout')
         ++ replicate k slash).
Proof.
  split; [reflexivity|]. split.
  - intros u -> Hu. destruct u; [congruence | reflexivity].
  - intros Hf. cbn [WahaClient.__init__ base_url].
    assert (E : str_or base_url' (rstrip 47 (WAHA_URL settings))
                = rstrip 47 (WAHA_URL settings)).
    { destruct base_url' as [[|x u]|]; try reflexivity. discriminate Hf. }
    rewrite E. apply rstrip_spec.
Qed.

Lemma init_base_url_witness :
  base_url (WahaClient.__init__ sample_settings (Some (py "http://h/")) None
              30) = py "http://h/" /\
  last (base_url (WahaClient.__init__ sample_settings (Some []) None 30))
  <> Some slash.
Proof.
  split.
  - apply (proj1 (proj2 (init_base_url sample_settings
                           (Some (py "http://h/")) None 30))
             (py "http://h/")); [reflexivity | discriminate].
  - apply (proj2 (proj2 (init_base_url sample_settings (Some []) None 30))).
    reflexivity.
Defined.

(** ** More on the exchange with the upstream *)

Lemma exchange_run (req : Request) (w : World) :
  bind (request req)
    (fun r => bind (raise_for_status r) (fun _ => response_json r)) w
  = (json_outcome (upstream w req), log_request req w).
Proof.
  unfold bind, request, json_outcome, raise_for_status, response_json, ret,
    raise.
  destruct (upstream w req) as [r|e]; [|reflexivity].
  destruct (is_success r); [destruct (json r)|]; reflexivity.
Qed.

(** A continuation that sends nothing adds nothing to the wire. *)
Lemma bind_wire {A B} (m : M A) (k : A -> M B) (w : World) :
  (forall a w1, wire (snd (k a w1)) = wire w1) ->
  wire (snd (bind m k w)) = wire (snd (m w)).
Proof.
  intros Hk. unfold bind. destruct (m w) as [[a|e] w1]; cbn; auto.
Qed.

Lemma lift_wire {A} (r : Result A) (w : World) :
  wire (snd (lift r w)) = wire w.
Proof. reflexivity. Qed.

(** What the status lookup makes of every outcome of its request. *)
Lemma get_session_status_run (rt : Runtime) (session_name : str) (w : World) :
  WahaClient.get_session_status rt session_name w
  = (match upstream w (status_request w session_name) with
     | Failed e => Raise e
     | Responded r =>
       if status_code r =? 404 then Ok None
       else if is_success r then
         match json r with
         | Some data =>
           match WahaSession_from rt data with
           | Ok s => Ok (Some s)
           | Raise e => Raise e
           end
         | None => Raise JSONDecodeError
         end
       else Raise (HTTPStatusError (status_code r))
     end,
     log_request (status_request w session_name) (ready w)).
Proof.
  unfold WahaClient.get_session_status.
  destruct (get_client_ready w) as [h E].
  rewrite try_except_reraise. unfold bind at 1. rewrite E.
  unfold bind at 1, self_base_url. unfold bind at 1, client_get, request.
  unfold status_request. rewrite ready_upstream, ready_base_url.
  destruct (upstream w _) as [r|e]; [|reflexivity].
  destruct (status_code r =? 404); [reflexivity|].
  unfold bind, raise_for_status, response_json, lift, ret, raise.
  destruct (is_success r); [|reflexivity].
  destruct (json r) as [data|]; [|reflexivity].
  destruct (WahaSession_from rt data); reflexivity.
Qed.

(** The fields of a validated session always pass [SessionResponse]. *)
Lemma session_response_mirror (rt : Runtime) (s : WahaSession.t) :
  SessionResponse_init rt
    (Some (VStr (WahaSession.id s))) (Some (VStr (WahaSession.name s)))
    (Some (VStr (WahaSession.status s)))
    (Some (VDict (WahaSession.config s)))
    (Some (optional_value (WahaSession.created_at s)))
  = Ok {| SessionResponse.id := WahaSession.id s;
          SessionResponse.name := WahaSession.name s;
          SessionResponse.status := WahaSession.status s;
          SessionResponse.config := Some (WahaSession.config s);
          SessionResponse.created_at := WahaSession.created_at s |}.
Proof. destruct (WahaSession.created_at s); reflexivity. Qed.

Lemma found_status_run (rt : Runtime) (session_name : str) (w w' : World)
  (s : WahaSession.t) :
  WahaClient.get_session_status rt session_name w = (Ok (Some s), w') ->
  SessionController.get_session_status rt session_name w
  = (Ok {| SessionStatusResponse.session :=
             {| SessionResponse.id := WahaSession.id s;
                SessionResponse.name := WahaSession.name s;
                SessionResponse.status := WahaSession.status s;
                SessionResponse.config := Some (WahaSession.config s);
                SessionResponse.created_at := WahaSession.created_at s |};
           SessionStatusResponse.connected :=
             bool_decide (upper rt (WahaSession.status s)
                            ∈ connected_statuses);
           SessionStatusResponse.phone := None |}, w').
Proof.
  intros Hst. unfold SessionController.get_session_status.
  unfold bind at 1. rewrite Hst.
  unfold bind, lift. rewrite session_response_mirror. reflexivity.
Qed.

(** X6. When the status lookup finds a session, the controller's response
    mirrors it: id, name, status, configuration and creation time are those
    of the session, [phone] is null, [connected] tells whether the
    upper-cased status is STARTED, CONNECTED or READY; building the
    response never fails, and the lookup was the only request. *)
Theorem get_session_status_found (rt : Runtime) (session_name : str)
  (w w' : World) (s : WahaSession.t) :
  WahaClient.get_session_status rt session_name w = (Ok (Some s), w') ->
  exists r,
    SessionController.get_session_status rt session_name w = (Ok r, w') /\
    SessionResponse.id (SessionStatusResponse.session r) = WahaSession.id s /\
    SessionResponse.name (SessionStatusResponse.session r)
    = WahaSession.name s /\
    SessionResponse.status (SessionStatusResponse.session r)
    = WahaSession.status s /\
    SessionResponse.config (SessionStatusResponse.session r)
    = Some (WahaSession.config s) /\
    SessionResponse.created_at (SessionStatusResponse.session r)
    = WahaSession.created_at s /\
    SessionStatusResponse.phone r = None /\
    (SessionStatusResponse.connected r = true <->
     upper rt (WahaSession.status s) ∈ connected_statuses) /\
    wire w' = wire w ++ [status_request w session_name].
Proof.
  intros Hst. eexists. split; [apply (found_status_run rt _ _ _ _ Hst)|].
  cbn. repeat (split; [reflexivity|]). split.
  - apply bool_decide_eq_true.
  - pose proof (get_session_status_wire rt session_name w) as Hw.
    rewrite Hst in Hw. exact Hw.
Qed.

Lemma get_session_status_found_witness :
  exists r,
    fst (SessionController.get_session_status sample_runtime (py "s1")
           (sample_world (answers (json_response 200
                                     (session_json "i1" "s1" "ready")))))
    = Ok r /\
    SessionResponse.id (SessionStatusResponse.session r) = py "i1" /\
    SessionStatusResponse.connected r = true.
Proof.
  destruct (get_session_status_found sample_runtime (py "s1")
              (sample_world (answers (json_response 200
                                        (session_json "i1" "s1" "ready"))))
              (snd (WahaClient.get_session_status sample_runtime (py "s1")
                 (sample_world (answers (json_response 200
                                        (session_json "i1" "s1" "ready"))))))
              {| WahaSession.id := py "i1"; WahaSession.name := py "s1";
                 WahaSession.status := py "ready";
                 WahaSession.config := ∅;
                 WahaSession.created_at := None;
                 WahaSession.updated_at := None |})
    as (r & Hrun & Hid & _ & _ & _ & _ & _ & Hconn & _).
  - vm_compute. reflexivity.
  - exists r. rewrite Hrun. split; [reflexivity|]. split; [exact Hid|].
    apply Hconn. vm_compute. apply list_elem_of_further, list_elem_of_further,
      list_elem_of_here.
Defined.

(** X7. The two views of a session agree: whenever
    [get_session_status] returns a response, [check_connection], run in
    the same state, returns [{"connected": c}] with [c] the response's
    [connected] field, and ends in the same state. *)
Theorem check_connection_agrees (rt : Runtime) (session_name : str)
  (w w' : World) (r : SessionStatusResponse.t) :
  SessionController.get_session_status rt session_name w = (Ok r, w') ->
  SessionController.check_connection rt session_name w
  = (Ok {[ py "connected" := VBool (SessionStatusResponse.connected r) ]},
     w').
Proof.
  intros Hr. unfold SessionController.check_connection. unfold bind at 1.
  destruct (WahaClient.get_session_status rt session_name w)
    as [[[s|]|e] w1] eqn:Hst.
  - rewrite (found_status_run rt _ _ _ _ Hst) in Hr.
    injection Hr as <- <-. reflexivity.
  - unfold SessionController.get_session_status in Hr.
    unfold bind at 1 in Hr. rewrite Hst in Hr.
    injection Hr as <- <-. reflexivity.
  - unfold SessionController.get_session_status in Hr.
    unfold bind at 1 in Hr. rewrite Hst in Hr. discriminate Hr.
Qed.

Lemma check_connection_agrees_witness :
  SessionController.check_connection sample_runtime (py "ghost")
    (sample_world (answers (json_response 404 VNone)))
  = (Ok {[ py "connected" := VBool false ]},
     snd (SessionController.get_session_status sample_runtime (py "ghost")
            (sample_world (answers (json_response 404 VNone))))).
Proof.
  apply (check_connection_agrees sample_runtime (py "ghost")
           (sample_world (answers (json_response 404 VNone)))
           (snd (SessionController.get_session_status sample_runtime
                   (py "ghost")
                   (sample_world (answers (json_response 404 VNone)))))
           (not_found_status (py "ghost"))).
  vm_compute. reflexivity.
Defined.

(** X8. 404 is the only status outside 2xx that the status lookup treats
    as absence.  For any other such status the lookup raises
    [HTTPStatusError], and so do [check_connection] and
    [get_session_status] of the controller: they do not report
    "not connected". *)
Theorem status_error_propagates (rt : Runtime) (session_name : str)
  (w : World) (r : Response) :
  upstream w (status_request w session_name) = Responded r ->
  status_code r <> 404 ->
  is_success r = false ->
  fst (WahaClient.get_session_status rt session_name w)
  = Raise (HTTPStatusError (status_code r)) /\
  fst (SessionController.check_connection rt session_name w)
  = Raise (HTTPStatusError (status_code r)) /\
  fst (SessionController.get_session_status rt session_name w)
  = Raise (HTTPStatusError (status_code r)).
Proof.
  intros Hup H404 Hs.
  assert (Hrun : WahaClient.get_session_status rt session_name w
    = (Raise (HTTPStatusError (status_code r)),
       log_request (status_request w session_name) (ready w))).
  { rewrite get_session_status_run, Hup, Hs.
    apply Z.eqb_neq in H404. rewrite H404. reflexivity. }
  split; [rewrite Hrun; reflexivity|]. split.
  - unfold SessionController.check_connection. unfold bind at 1.
    rewrite Hrun. reflexivity.
  - unfold SessionController.get_session_status. unfold bind at 1.
    rewrite Hrun. reflexivity.
Qed.

Lemma status_error_propagates_witness :
  fst (SessionController.check_connection sample_runtime (py "s1")
         (sample_world (answers (json_response 503 VNone))))
  = Raise (HTTPStatusError 503).
Proof.
  apply (status_error_propagates sample_runtime (py "s1")
           (sample_world (answers (json_response 503 VNone)))
           (json_response 503 VNone)).
  - reflexivity.
  - discriminate.
  - reflexivity.
Defined.

Lemma stop_session_run (session_name : str) (w : World) :
  WahaClient.stop_session session_name w
  = (json_outcome (upstream w (stop_request w session_name)),
     log_request (stop_request w session_name) (ready w)).
Proof.
  unfold WahaClient.stop_session.
  destruct (get_client_ready w) as [h E].
  rewrite try_except_reraise. unfold bind at 1. rewrite E.
  unfold bind at 1, self_base_url. cbn beta iota.
  unfold client_post. rewrite exchange_run.
  unfold stop_request. rewrite ready_upstream, ready_base_url. reflexivity.
Qed.

Lemma logout_session_run (session_name : str) (w : World) :
  WahaClient.logout_session session_name w
  = (json_outcome (upstream w (logout_request w session_name)),
     log_request (logout_request w session_name) (ready w)).
Proof.
  unfold WahaClient.logout_session.
  destruct (get_client_ready w) as [h E].
  rewrite try_except_reraise. unfold bind at 1. rewrite E.
  unfold bind at 1, self_base_url. cbn beta iota.
  unfold client_delete. rewrite exchange_run.
  unfold logout_request. rewrite ready_upstream, ready_base_url. reflexivity.
Qed.

(** X9. [stop_session] and [logout_session] each send exactly one request
    ([POST .../stop/<name>], [DELETE .../<name>]).  What the controller
    returns does not depend on the body the upstream sent: it is the fixed
    record naming the session.  But the call fails when the request fails,
    when the status is outside 2xx, and also when a 2xx answer carries no
    JSON body, although that body is thrown away. *)
Theorem stop_and_logout_outcome (session_name : str) (w : World) :
  SessionController.stop_session session_name w
  = (match json_outcome (upstream w (stop_request w session_name)) with
     | Ok _ => Ok (<[py "session" := VStr session_name]>
                     {[ py "status" := VStr (py "stopped") ]})
     | Raise e => Raise e
     end,
     log_request (stop_request w session_name) (ready w)) /\
  SessionController.logout_session session_name w
  = (match json_outcome (upstream w (logout_request w session_name)) with
     | Ok _ => Ok (<[py "session" := VStr session_name]>
                     {[ py "status" := VStr (py "logged_out") ]})
     | Raise e => Raise e
     end,
     log_request (logout_request w session_name) (ready w)) /\
  (forall r, upstream w (stop_request w session_name) = Responded r ->
             is_success r = true -> json r = None ->
             fst (SessionController.stop_session session_name w)
             = Raise JSONDecodeError).
Proof.
  assert (Hstop : SessionController.stop_session session_name w
    = (match json_outcome (upstream w (stop_request w session_name)) with
       | Ok _ => Ok (<[py "session" := VStr session_name]>
                       {[ py "status" := VStr (py "stopped") ]})
       | Raise e => Raise e
       end,
       log_request (stop_request w session_name) (ready w))).
  { unfold SessionController.stop_session, bind. rewrite stop_session_run.
    destruct (json_outcome (upstream w (stop_request w session_name)));
      reflexivity. }
  split; [exact Hstop|]. split.
  - unfold SessionController.logout_session, bind.
    rewrite logout_session_run.
    destruct (json_outcome (upstream w (logout_request w session_name)));
      reflexivity.
  - intros r Hr Hs Hj. rewrite Hstop. cbn [fst].
    unfold json_outcome. rewrite Hr, Hs, Hj. reflexivity.
Qed.

Lemma stop_and_logout_outcome_witness :
  fst (SessionController.stop_session (py "s1")
         (sample_world (answers {| status_code := 200; content := [];
                                   json := None |})))
  = Raise JSONDecodeError.
Proof.
  apply (proj2 (proj2 (stop_and_logout_outcome (py "s1")
           (sample_world (answers {| status_code := 200; content := [];
                                     json := None |}))))
           {| status_code := 200; content := []; json := None |});
    reflexivity.
Defined.

(** ** Starting a session *)

Lemma start_session_wire (rt : Runtime) (session_name : str)
  (config : option (gmap str Value)) (w : World) :
  wire (snd (WahaClient.start_session rt session_name config w))
  = wire w ++ [start_request w session_name (dict_or_empty config)].
Proof.
  unfold WahaClient.start_session.
  destruct (get_client_ready w) as [h E].
  rewrite try_except_reraise. unfold bind at 1. rewrite E.
  cbv zeta. unfold bind at 1, self_base_url. cbn beta iota.
  rewrite bind_wire.
  - unfold client_post_json. rewrite request_wire, ready_wire.
    unfold start_request. rewrite ready_base_url. reflexivity.
  - intros r w1. rewrite bind_wire.
    + unfold raise_for_status. destruct (is_success r); reflexivity.
    + intros _ w2. rewrite bind_wire.
      * unfold response_json. destruct (json r); reflexivity.
      * intros d w3. reflexivity.
Qed.

(** A validated body has a name of 1 to 100 characters, none of them a
    surrogate. *)
Lemma SessionCreate_name_length (name config : option Value)
  (session_data : SessionCreate.t) :
  SessionCreate_check name config = inr session_data ->
  ~ name_refused (SessionCreate.name session_data).
Proof.
  unfold SessionCreate_check, Validate.required_str_between, name_refused.
  destruct (Validate.required_str "name" name) as [e|n].
  - destruct (Validate.optional_dict "config" config); discriminate.
  - destruct (existsb Validate.is_surrogate n) eqn:Hs.
    { destruct (Validate.optional_dict "config" config); discriminate. }
    destruct (length n <? 1)%nat eqn:Hlo.
    { destruct (Validate.optional_dict "config" config); discriminate. }
    destruct (100 <? length n)%nat eqn:Hhi.
    { destruct (Validate.optional_dict "config" config); discriminate. }
    destruct (Validate.optional_dict "config" config); [discriminate|].
    cbn. intros [= <-]. cbn. rewrite Hs.
    apply Nat.ltb_ge in Hlo, Hhi. intros [H|[H|H]]; [discriminate|lia|lia].
Qed.

(** A name outside these bounds is an error of the field [name]. *)
Lemma SessionCreate_name_refused (n : str) (config : option Value) :
  name_refused n ->
  exists errors,
    SessionCreate_check (Some (VStr n)) config = inl errors /\
    (py "name", name_error n) ∈ errors.
Proof.
  intros Hbad.
  unfold SessionCreate_check, Validate.required_str_between, name_error.
  cbn [Validate.required_str Validate.as_str].
  destruct (existsb Validate.is_surrogate n) eqn:Hs.
  { destruct (Validate.optional_dict "config" config);
      eexists; (split; [reflexivity|]); apply list_elem_of_here. }
  destruct Hbad as [H|Hlen]; [congruence|].
  destruct (decide (n = [])) as [->|Hne].
  - cbn. destruct (Validate.optional_dict "config" config);
      eexists; (split; [reflexivity|]); apply list_elem_of_here.
  - assert (Hlo : (length n <? 1)%nat = false).
    { apply Nat.ltb_ge. destruct n; [congruence|cbn; lia]. }
    assert (Hhi : (100 <? length n)%nat = true).
    { apply Nat.ltb_lt. destruct Hlen as [H0|H]; [|exact H].
      destruct n; [congruence|discriminate H0]. }
    rewrite Hlo, Hhi.
    destruct (Validate.optional_dict "config" config);
      eexists; (split; [reflexivity|]); apply list_elem_of_here.
Qed.



(** ** Text messages *)

Lemma send_message_run (session_name chat_id message : str)
  (quoted_message_id : option str) (w : World) :
  WahaClient.send_message session_name chat_id message quoted_message_id w
  = (json_outcome
       (upstream w (text_request w session_name chat_id message
                      quoted_message_id)),
     log_request (text_request w session_name chat_id message
                    quoted_message_id) (ready w)).
Proof.
  unfold WahaClient.send_message.
  destruct (get_client_ready w) as [h E].
  rewrite try_except_reraise. unfold bind at 1. rewrite E.
  cbv zeta. unfold bind at 1, self_base_url. cbn beta iota.
  unfold client_post_json. rewrite exchange_run.
  unfold text_request, text_url. rewrite ready_upstream, ready_base_url.
  destruct (WahaClient.truthy_opt_str quoted_message_id); reflexivity.
Qed.

(** X11. [send_message] sends exactly one request, a [POST] to the
    session's [send/text] with a JSON object holding [chatId] and
    [message]; [quotedMessageId] is part of it exactly when the quoted id
    is a non-empty string.  It returns the decoded body, or raises when
    the request fails, the status is outside 2xx or the body is not
    JSON. *)
Theorem send_message_payload (session_name chat_id message : str)
  (quoted_message_id : option str) (w : World) :
  exists payload : gmap str Value,
    WahaClient.send_message session_name chat_id message quoted_message_id w
    = (json_outcome
         (upstream w {| method := POST; url := text_url w session_name;
                        body := JsonBody (VDict payload) |}),
       log_request {| method := POST; url := text_url w session_name;
                      body := JsonBody (VDict payload) |} (ready w)) /\
    payload !! py "chatId" = Some (VStr chat_id) /\
    payload !! py "message" = Some (VStr message) /\
    (forall q, quoted_message_id = Some q -> q <> [] ->
               payload !! py "quotedMessageId" = Some (VStr q)) /\
    (is_Some (payload !! py "quotedMessageId") <->
     exists q, quoted_message_id = Some q /\ q <> []).
Proof.
  eexists. split; [apply send_message_run|].
  rewrite <- truthy_opt_str_spec.
  destruct (WahaClient.truthy_opt_str quoted_message_id) eqn:E.
  - split; [reflexivity|]. split; [reflexivity|]. split.
    + intros q -> _. reflexivity.
    + split; [reflexivity | eauto].
  - split; [reflexivity|]. split; [reflexivity|]. split.
    + intros q -> Hq. destruct q; [congruence | discriminate E].
    + split; [intros [? [=]] | discriminate].
Qed.

Lemma send_message_payload_witness :
  exists payload : gmap str Value,
    wire (snd (WahaClient.send_message (py "s1") (py "123") (py "hi")
                 (Some (py "q1"))
                 (sample_world (answers (json_response 200 sent_m1)))))
    = [ {| method := POST;
           url := py "http://localhost:3000/api/sessions/s1/send/text";
           body := JsonBody (VDict payload) |} ] /\
    payload !! py "quotedMessageId" = Some (VStr (py "q1")).
Proof.
  destruct (send_message_payload (py "s1") (py "123") (py "hi")
              (Some (py "q1"))
              (sample_world (answers (json_response 200 sent_m1))))
    as (payload & Hrun & _ & _ & Hq & _).
  exists payload. rewrite Hrun. split.
  - reflexivity.
  - apply Hq; [reflexivity | discriminate].
Defined.

(** Building a [MessageResponse] from a send result, the way the
    controllers do, fails whatever the result is. *)
Lemma message_response_fails (rt : Runtime) (m : M Value) (chat_id : str)
  (w : World) :
  exists e,
    bind m (fun result =>
      bind (lift (dict_get result (py "id") (VStr []))) (fun id =>
      bind (lift (dict_get result (py "status") (VStr (py "sent"))))
        (fun status =>
      lift (MessageResponse_init rt (Some id) (Some (VStr chat_id))
              (Some status) None)))) w
    = (Raise e, snd (m w)).
Proof.
  unfold bind at 1. destruct (m w) as [[result|e] w1]; [|cbn; eauto].
  unfold bind, lift. cbn [snd].
  destruct (dict_get result (py "id") _) as [id|e]; [|eauto].
  destruct (dict_get result (py "status") _) as [st|e]; [|eauto].
  destruct (MessageResponse_needs_timestamp rt (Some id)
              (Some (VStr chat_id)) (Some st)) as (errors & E & _).
  rewrite E. eauto.
Qed.

(** X12. Sending a text to a group never yields a [MessageResponse],
    from either controller: the text request for the group id goes out,
    with no quoted id, and then building the response fails, because no
    [timestamp] is passed. *)
Theorem send_message_to_group_never_returns (rt : Runtime)
  (session_name group_id message : str) (w : World) :
  (exists e, fst (MessageController.send_message_to_group rt session_name
                    group_id message w) = Raise e) /\
  (exists e, fst (GroupController.send_message_to_group rt session_name
                    group_id message w) = Raise e) /\
  snd (MessageController.send_message_to_group rt session_name group_id
         message w)
  = log_request (text_request w session_name group_id message None)
      (ready w) /\
  snd (GroupController.send_message_to_group rt session_name group_id
         message w)
  = log_request (text_request w session_name group_id message None)
      (ready w).
Proof.
  destruct (message_response_fails rt
              (WahaClient.send_message_to_group session_name group_id
                 message) group_id w) as [e He].
  unfold WahaClient.send_message_to_group in He.
  rewrite send_message_run in He. cbn [snd] in He.
  unfold MessageController.send_message_to_group,
    GroupController.send_message_to_group, WahaClient.send_message_to_group.
  rewrite He. cbn. eauto 10.
Qed.

(** ** Sending and uploading files *)

(** A value that is no text is refused by a text field, not coerced. *)
Lemma as_str_not_text (field : string) (v : Value) :
  not_text v ->
  Validate.as_str field v = inl [(py field, py "string_type")].
Proof.
  intros [Hs Hb]. destruct v; try reflexivity.
  - destruct (Hs s). reflexivity.
  - destruct (Hb b). reflexivity.
Qed.

Lemma optional_str_not_text (field : string) (v : Value) :
  not_text v -> v <> VNone ->
  Validate.optional_str field (Some v) = inl [(py field, py "string_type")].
Proof.
  intros Ht Hn. unfold Validate.optional_str.
  rewrite (as_str_not_text field v Ht).
  destruct v; try reflexivity. destruct Hn. reflexivity.
Qed.

(** X13. The senders of [FileController] build their [FileResponse] from
    the upstream's JSON object key by key, and each key on its own: [id]
    is the empty string when absent, [status] is [sent] when absent, [url]
    is nothing when absent or [null], and a string under a key is passed
    on, whatever the other keys hold.  A value of another type is not
    coerced: under any of the three keys it makes the construction fail
    with a [string_type] error for that key ([null] included, except for
    [url]). *)
Theorem file_response_extraction (chat_id : str) (d : gmap str Value)
  (w : World) :
  (forall i st u,
     text_or [] (d !! py "id") = Some i ->
     text_or (py "sent") (d !! py "status") = Some st ->
     optional_text (d !! py "url") = Some u ->
     FileController.file_response (VDict d) chat_id w
     = (Ok {| FileResponse.id := i; FileResponse.chat_id := chat_id;
              FileResponse.status := st; FileResponse.url := u |}, w)) /\
  (forall key v,
     key ∈ [py "id"; py "status"; py "url"] ->
     d !! key = Some v -> not_text v ->
     (key = py "url" -> v <> VNone) ->
     exists errors,
       FileController.file_response (VDict d) chat_id w
       = (Raise (ValidationError (py "FileResponse") errors), w) /\
       (key, py "string_type") ∈ errors) /\
  (forall session_name file_content caption filename w0,
     WahaClient.send_file session_name chat_id None (Some file_content) None
       caption filename w0 = (Ok (VDict d), w) ->
     FileController.send_file_from_content session_name chat_id file_content
       caption filename w0
     = FileController.file_response (VDict d) chat_id w).
Proof.
  split; [|split].
  - intros i st u Hi Hst Hu.
    unfold FileController.file_response, bind, lift, dict_get.
    destruct (d !! py "id") as [vi|]; [destruct vi; try discriminate Hi|];
      injection Hi as <-;
      (destruct (d !! py "status") as [vs|];
         [destruct vs; try discriminate Hst|]; injection Hst as <-);
      (destruct (d !! py "url") as [vu|];
         [destruct vu; try discriminate Hu|]; injection Hu as <-);
      reflexivity.
  - intros key v Hkey Hv Ht Hurl.
    unfold FileController.file_response, bind, lift, dict_get.
    unfold FileResponse_init, Validate.finish.
    cbn [Validate.required_str].
    repeat (apply elem_of_cons in Hkey as [->|Hkey]);
      [| | | inversion Hkey]; rewrite Hv; cbn [default from_option id].
    + rewrite (as_str_not_text "id" v Ht).
      cbn [Validate.as_str Validate.ap].
      destruct (Validate.as_str "status" _) as [e1|v1];
        destruct (Validate.optional_str "url" _) as [e2|v2];
        cbn [Validate.ap]; eexists; (split; [reflexivity|]);
        rewrite ?elem_of_app; repeat left; apply list_elem_of_here.
    + rewrite (as_str_not_text "status" v Ht).
      destruct (Validate.as_str "id" _) as [e1|v1];
        destruct (Validate.optional_str "url" _) as [e2|v2];
        cbn [Validate.as_str Validate.ap]; eexists;
        (split; [reflexivity|]);
        rewrite ?elem_of_app;
        first [ apply list_elem_of_here
              | left; apply list_elem_of_here
              | right; apply list_elem_of_here
              | left; right; apply list_elem_of_here ].
    + rewrite (optional_str_not_text "url" v Ht (Hurl eq_refl)).
      destruct (Validate.ap _ (Validate.as_str "status" _)) as [e1|v1];
        cbn [Validate.ap]; eexists; (split; [reflexivity|]);
        rewrite ?elem_of_app;
        first [ apply list_elem_of_here
              | left; apply list_elem_of_here
              | right; apply list_elem_of_here
              | left; right; apply list_elem_of_here ].
  - intros session_name file_content caption filename w0 Hsend.
    unfold FileController.send_file_from_content. unfold bind at 1.
    rewrite Hsend. reflexivity.
Qed.

Lemma file_response_extraction_witness :
  fst (FileController.file_response
         (VDict (<[py "status" := VStr (py "queued")]>
                   {[ py "id" := VStr (py "f1") ]}))
         (py "123") (sample_world unreachable))
  = Ok {| FileResponse.id := py "f1"; FileResponse.chat_id := py "123";
          FileResponse.status := py "queued"; FileResponse.url := None |} /\
  exists errors,
    fst (FileController.file_response
           (VDict (<[py "status" := VNone]> {[ py "id" := VStr (py "f1") ]}))
           (py "123") (sample_world unreachable))
    = Raise (ValidationError (py "FileResponse") errors) /\
    (py "status", py "string_type") ∈ errors.
Proof.
  split.
  - rewrite (proj1 (file_response_extraction (py "123")
               (<[py "status" := VStr (py "queued")]>
                  {[ py "id" := VStr (py "f1") ]})
               (sample_world unreachable))
               (py "f1") (py "queued") None);
      [reflexivity | vm_compute; reflexivity ..].
  - destruct (proj1 (proj2 (file_response_extraction (py "123")
               (<[py "status" := VNone]> {[ py "id" := VStr (py "f1") ]})
               (sample_world unreachable)))
               (py "status") VNone) as (errors & Hrun & Hin).
    + apply list_elem_of_further, list_elem_of_here.
    + vm_compute. reflexivity.
    + split; intros; discriminate.
    + intros H. vm_compute in H. discriminate H.
    + exists errors. rewrite Hrun. split; [reflexivity|exact Hin].
Defined.

(** X14. An empty upload is turned down before anything is sent: for an
    uploaded file without bytes, [POST /files/send/<session>/upload]
    replies 500 with the text of the missing-source [ValueError], and no
    request reaches the upstream. *)
Theorem empty_upload_rejected (rt : Runtime) (session_name chat_id : str)
  (file : UploadFile.t) (caption : option str) (w : World) :
  UploadFile.data file = [] ->
  Routes.POST_files_send_upload rt session_name chat_id file caption w
  = (Failure 500
       {[ py "detail" := VStr (exception_str rt missing_source) ]},
     ready w) /\
  wire (ready w) = wire w.
Proof.
  intros Hempty. split; [|apply ready_wire].
  unfold Routes.POST_files_send_upload, serve, Routes.send_uploaded_file,
    try_except, FileController.send_file_from_content.
  unfold bind at 1.
  rewrite (send_file_no_content session_name chat_id None caption
             (UploadFile.filename file) w eq_refl
             (Some (UploadFile.data file)))
    by (rewrite Hempty; reflexivity).
  reflexivity.
Qed.

Lemma empty_upload_rejected_witness :
  fst (Routes.POST_files_send_upload sample_runtime (py "s1") (py "123")
         {| UploadFile.filename := Some (py "a.txt"); UploadFile.data := [] |}
         None (sample_world (answers (json_response 200 sent_m1))))
  = Failure 500 {[ py "detail" := VStr (py "error") ]}.
Proof.
  rewrite (proj1 (empty_upload_rejected sample_runtime (py "s1") (py "123")
             {| UploadFile.filename := Some (py "a.txt");
                UploadFile.data := [] |}
             None (sample_world (answers (json_response 200 sent_m1)))
             eq_refl)).
  reflexivity.
Defined.

(** X15. [upload_file] of the controller forwards the uploaded bytes in
    one multipart [POST .../files/upload], the file part named [file] and
    carrying the client's file name (or [file] when there is none), with
    no form fields, and returns the decoded body; an upload without bytes
    raises [ValueError] and sends nothing. *)
Theorem upload_file_outcome (session_name : str) (file : UploadFile.t)
  (w : World) :
  FileController.upload_file session_name file w
  = match UploadFile.data file with
    | [] => (Raise missing_upload, ready w)
    | _ :: _ =>
      (json_outcome
         (upstream w (upload_request w session_name (UploadFile.filename file)
                        (UploadFile.data file))),
       log_request (upload_request w session_name (UploadFile.filename file)
                      (UploadFile.data file)) (ready w))
    end.
Proof.
  unfold FileController.upload_file, WahaClient.upload_file.
  destruct (get_client_ready w) as [h E].
  rewrite try_except_reraise. unfold bind at 1. rewrite E.
  unfold bind at 1, ret at 1. unfold bind at 1, self_base_url.
  cbn beta iota.
  destruct (UploadFile.data file) as [|b bs] eqn:Ed.
  - reflexivity.
  - cbn [WahaClient.truthy_opt_bytes truthy_bytes default from_option id].
    unfold client_post_files. rewrite exchange_run.
    unfold upload_request. rewrite ready_upstream, ready_base_url.
    reflexivity.
Qed.

(** ** More on groups *)

Lemma group_details_no_error (g : WahaGroup.t) :
  GroupController.group_details g !! py "error" = None.
Proof. reflexivity. Qed.

Lemma group_details_id (g : WahaGroup.t) :
  GroupController.group_details g !! py "id" = Some (VStr (WahaGroup.id g)).
Proof. reflexivity. Qed.

(** The scan stops at the first group with the id. *)
Lemma scan_found (groups : list WahaGroup.t) (group_id : str) :
  group_id ∈ (WahaGroup.id <$> groups) ->
  exists pre g post,
    groups = pre ++ (g :: post) /\
    (group_id ∉ (WahaGroup.id <$> pre)) /\
    WahaGroup.id g = group_id /\
    GroupController.scan groups group_id = GroupController.group_details g.
Proof.
  induction groups as [|g groups IH]; intros Hin.
  - inversion Hin.
  - cbn [GroupController.scan].
    destruct (decide (WahaGroup.id g = group_id)) as [Heq|Hne].
    + exists [], g, groups. split; [reflexivity|]. split; [|auto].
      intros H. inversion H.
    + rewrite fmap_cons in Hin. apply elem_of_cons in Hin as [Hin|Hin];
        [congruence|].
      destruct (IH Hin) as (pre & g' & post & -> & Hpre & Hid & Hscan).
      exists (g :: pre), g', post. split; [reflexivity|].
      split; [|auto]. rewrite fmap_cons, not_elem_of_cons. auto.
Qed.

(** X16. The sentinel of [get_group_details] cannot be mistaken for a
    group: whatever groups the list fetch returned, the record returned
    has the key [error] exactly when the id is not among them, and when
    the id is among them its [id] field is the requested id. *)
Theorem group_sentinel_unambiguous (rt : Runtime)
  (session_name group_id : str) (w w' : World) (groups : list WahaGroup.t) :
  WahaClient.get_groups rt session_name w = (Ok groups, w') ->
  exists d : gmap str Value,
    GroupController.get_group_details rt session_name group_id w
    = (Ok d, w') /\
    (is_Some (d !! py "error") <-> group_id ∉ (WahaGroup.id <$> groups)) /\
    (group_id ∈ (WahaGroup.id <$> groups) ->
     d !! py "id" = Some (VStr group_id)).
Proof.
  intros Hg. unfold GroupController.get_group_details. unfold bind at 1.
  rewrite Hg. unfold ret. eexists. split; [reflexivity|].
  destruct (decide (group_id ∈ (WahaGroup.id <$> groups))) as [Hin|Hnot].
  - destruct (scan_found groups group_id Hin)
      as (pre & g & post & _ & _ & Hid & ->).
    rewrite group_details_no_error, group_details_id, Hid.
    split; [|reflexivity]. split; [intros [? [=]] | contradiction].
  - rewrite (scan_absent groups group_id Hnot).
    split; [|contradiction]. split; [auto|]. intros _. eexists. reflexivity.
Qed.

Lemma group_sentinel_unambiguous_witness :
  exists d : gmap str Value,
    fst (GroupController.get_group_details sample_runtime (py "s1") (py "g1")
           (sample_world (answers (json_response 200
                                     (VList [group_json "g1" "Friends"])))))
    = Ok d /\
    d !! py "id" = Some (VStr (py "g1")) /\ d !! py "error" = None.
Proof.
  destruct (group_sentinel_unambiguous sample_runtime (py "s1") (py "g1")
              (sample_world (answers (json_response 200
                                        (VList [group_json "g1" "Friends"]))))
              (snd (WahaClient.get_groups sample_runtime (py "s1")
                 (sample_world (answers (json_response 200
                                        (VList [group_json "g1" "Friends"]))))))
              [ {| WahaGroup.id := py "g1"; WahaGroup.name := py "Friends";
                   WahaGroup.description := None;
                   WahaGroup.participants := [];
                   WahaGroup.created_at := None |} ])
    as (d & Hrun & Herr & Hid).
  - vm_compute. reflexivity.
  - assert (Hin : py "g1" ∈ [py "g1"]) by apply list_elem_of_here.
    exists d. rewrite Hrun. split; [reflexivity|]. split; [exact (Hid Hin)|].
    destruct (d !! py "error") eqn:E; [|reflexivity].
    exfalso. apply (proj1 Herr); [eauto | exact Hin].
Defined.

(** X17. [get_group_details] and [get_groups] agree: when the id occurs
    among the fetched groups, the details returned are those of the first
    group with that id, and they are the entry at that group's position
    in the list [get_groups] returns for the same fetch. *)
Theorem group_details_is_first_match (rt : Runtime)
  (session_name group_id : str) (w w' : World) (groups : list WahaGroup.t) :
  WahaClient.get_groups rt session_name w = (Ok groups, w') ->
  group_id ∈ (WahaGroup.id <$> groups) ->
  exists pre g post listed,
    groups = pre ++ (g :: post) /\
    (group_id ∉ (WahaGroup.id <$> pre)) /\
    WahaGroup.id g = group_id /\
    GroupController.get_group_details rt session_name group_id w
    = (Ok (GroupController.group_details g), w') /\
    GroupController.get_groups rt session_name w = (Ok listed, w') /\
    length listed = length groups /\
    listed !! length pre = Some (GroupController.group_details g).
Proof.
  intros Hg Hin.
  destruct (scan_found groups group_id Hin)
    as (pre & g & post & Hsplit & Hpre & Hid & Hscan).
  exists pre, g, post, (GroupController.group_details <$> groups).
  split; [exact Hsplit|]. split; [exact Hpre|]. split; [exact Hid|].
  unfold GroupController.get_group_details, GroupController.get_groups.
  unfold bind. rewrite Hg. unfold ret. rewrite Hscan.
  split; [reflexivity|]. split; [reflexivity|].
  split; [apply length_fmap|].
  rewrite Hsplit, list_lookup_fmap, lookup_app_r by lia.
  rewrite Nat.sub_diag. reflexivity.
Qed.

Lemma group_details_is_first_match_witness :
  fst (GroupController.get_group_details sample_runtime (py "s1") (py "g2")
         (sample_world (answers (json_response 200
            (VList [group_json "g1" "A"; group_json "g2" "B";
                    group_json "g2" "C"])))))
  = Ok (GroupController.group_details
          {| WahaGroup.id := py "g2"; WahaGroup.name := py "B";
             WahaGroup.description := None; WahaGroup.participants := [];
             WahaGroup.created_at := None |}).
Proof.
  destruct (group_details_is_first_match sample_runtime (py "s1") (py "g2")
              (sample_world (answers (json_response 200
                 (VList [group_json "g1" "A"; group_json "g2" "B";
                         group_json "g2" "C"]))))
              (snd (WahaClient.get_groups sample_runtime (py "s1")
                 (sample_world (answers (json_response 200
                    (VList [group_json "g1" "A"; group_json "g2" "B";
                            group_json "g2" "C"]))))))
              [ {| WahaGroup.id := py "g1"; WahaGroup.name := py "A";
                   WahaGroup.description := None;
                   WahaGroup.participants := [];
                   WahaGroup.created_at := None |};
                {| WahaGroup.id := py "g2"; WahaGroup.name := py "B";
                   WahaGroup.description := None;
                   WahaGroup.participants := [];
                   WahaGroup.created_at := None |};
                {| WahaGroup.id := py "g2"; WahaGroup.name := py "C";
                   WahaGroup.description := None;
                   WahaGroup.participants := [];
                   WahaGroup.created_at := None |} ])
    as (pre & g & post & listed & _ & _ & _ & Hrun & _).
  - vm_compute. reflexivity.
  - apply list_elem_of_further, list_elem_of_here.
  - vm_compute. reflexivity.
Defined.

Lemma all_str_fmap (l : list str) : Validate.all_str (VStr <$> l) = Some l.
Proof.
  induction l as [|s l IH]; [reflexivity|].
  rewrite fmap_cons. cbn [Validate.all_str]. rewrite IH. reflexivity.
Qed.

(** X18. The record the controller makes of a group loses nothing:
    validating it as a [WahaGroup] again gives the group back. *)
Theorem group_details_roundtrip (rt : Runtime) (g : WahaGroup.t) :
  WahaGroup_from rt (VDict (GroupController.group_details g)) = Ok g.
Proof.
  destruct g as [i n d ps c].
  unfold WahaGroup_from, kwargs.
  change (GroupController.group_details _ !! py "id") with (Some (VStr i)).
  change (GroupController.group_details _ !! py "name") with (Some (VStr n)).
  change (GroupController.group_details _ !! py "description")
    with (Some (WahaClient.optional_str_value d)).
  change (GroupController.group_details _ !! py "participants")
    with (Some (VList (VStr <$> ps))).
  change (GroupController.group_details _ !! py "created_at")
    with (Some (optional_value c)).
  unfold WahaGroup_init, Validate.default_list_str.
  rewrite all_str_fmap.
  destruct d, c; reflexivity.
Qed.

(** What [get_groups] makes of every outcome of the list fetch. *)
Lemma get_groups_run (rt : Runtime) (session_name : str) (w : World) :
  WahaClient.get_groups rt session_name w
  = (match json_outcome (upstream w (groups_request w session_name)) with
     | Ok groups_data =>
       match iterate groups_data with
       | Ok items => traverse (WahaGroup_from rt) items
       | Raise e => Raise e
       end
     | Raise e => Raise e
     end,
     log_request (groups_request w session_name) (ready w)).
Proof.
  unfold WahaClient.get_groups.
  destruct (get_client_ready w) as [h E].
  rewrite try_except_reraise. unfold bind at 1. rewrite E.
  unfold bind at 1, self_base_url. unfold bind at 1, client_get, request.
  unfold groups_request, json_outcome.
  rewrite ready_upstream, ready_base_url.
  destruct (upstream w _) as [r|e]; [|reflexivity].
  unfold bind, raise_for_status, response_json, lift, ret, raise.
  destruct (is_success r); [|reflexivity].
  destruct (json r) as [data|]; [|reflexivity].
  destruct (iterate data); reflexivity.
Qed.

Lemma traverse_raises {A B} (f : A -> Result B) (l : list A) (x : A)
  (e : Exception) :
  x ∈ l -> f x = Raise e -> exists e', traverse f l = Raise e'.
Proof.
  induction l as [|y l IH]; intros Hin Hx; [inversion Hin|].
  cbn [traverse]. apply elem_of_cons in Hin as [<-|Hin].
  - rewrite Hx. eauto.
  - destruct (f y); [|eauto].
    destruct (IH Hin Hx) as [e' ->]. eauto.
Qed.

Lemma traverse_ok {A B} (f : A -> Result B) (l : list A) (ys : list B) :
  traverse f l = Ok ys -> Forall2 (fun x y => f x = Ok y) l ys.
Proof.
  revert ys. induction l as [|x l IH]; intros ys H; cbn [traverse] in H.
  - injection H as <-. constructor.
  - destruct (f x) as [y|e] eqn:Ex; [|discriminate H].
    destruct (traverse f l) as [ys'|e]; [|discriminate H].
    injection H as <-. constructor; [exact Ex | apply IH; reflexivity].
Qed.

(** X19. The list fetch is all or nothing.  When the upstream answers
    with a JSON list, one entry that does not validate as a group makes
    the whole [get_groups] raise; when it returns, it returns one group
    per entry, in order, each the validation of its entry. *)
Theorem get_groups_all_or_nothing (rt : Runtime) (session_name : str)
  (w : World) (r : Response) (items : list Value) :
  upstream w (groups_request w session_name) = Responded r ->
  is_success r = true ->
  json r = Some (VList items) ->
  (forall item e, item ∈ items -> WahaGroup_from rt item = Raise e ->
     exists e', fst (WahaClient.get_groups rt session_name w) = Raise e') /\
  (forall groups,
     fst (WahaClient.get_groups rt session_name w) = Ok groups ->
     Forall2 (fun item g => WahaGroup_from rt item = Ok g) items groups).
Proof.
  intros Hup Hs Hj.
  rewrite get_groups_run. unfold json_outcome. rewrite Hup, Hs, Hj.
  cbn [fst iterate]. split.
  - intros item e Hin He. exact (traverse_raises _ _ _ _ Hin He).
  - intros groups. apply traverse_ok.
Qed.

Lemma get_groups_all_or_nothing_witness :
  exists e,
    fst (WahaClient.get_groups sample_runtime (py "s1")
           (sample_world (answers (json_response 200
              (VList [group_json "g1" "A"; VDict ∅])))))
    = Raise e.
Proof.
  apply (proj1 (get_groups_all_or_nothing sample_runtime (py "s1")
           (sample_world (answers (json_response 200
              (VList [group_json "g1" "A"; VDict ∅]))))
           (json_response 200 (VList [group_json "g1" "A"; VDict ∅]))
           [group_json "g1" "A"; VDict ∅] eq_refl eq_refl eq_refl)
           (VDict ∅)
           (ValidationError (py "WahaGroup")
              [(py "id", py "missing"); (py "name", py "missing")])).
  - apply list_elem_of_further, list_elem_of_here.
  - vm_compute. reflexivity.
Defined.

(** ** More on the routes *)

(** X20. The function [readiness] never raises and sends the one ping
    request: it returns [ready]/[connected] when the ping is answered with
    a 2xx status and [not_ready]/[disconnected] otherwise.  Its route
    [GET /health/ready] is never registered, for the same reason as
    [GET /health]: the parameter [waha_client: WahaClient] comes without
    [Depends]. *)
Theorem readiness_route_refused (rt : Runtime) (w : World) :
  Routes.readiness w
  = (Ok (if reachable w
         then <[py "waha" := VStr (py "connected")]>
                {[ py "status" := VStr (py "ready") ]}
         else <[py "waha" := VStr (py "disconnected")]>
                {[ py "status" := VStr (py "not_ready") ]}),
     log_request (ping_request w) (ready w)) /\
  Routes.GET_health_ready rt = Refused "waha_client" "WahaClient".
Proof.
  split.
  - unfold Routes.readiness, bind. rewrite ping_run.
    destruct (reachable w); reflexivity.
  - reflexivity.
Qed.

(** X21. The route of [check_connection] answers in one of two ways.
    When the status lookup returns, the reply is 200 with
    [{"connected": b}].  When it raises [e], the reply is 500 with
    [{"detail": str(e)}]: the route turns every exception into an
    [HTTPException], so the envelope of the global handler is never used
    and the error text is sent whether or not [APP_DEBUG] is set. *)
Theorem check_connection_route_replies (rt : Runtime) (session_name : str)
  (w : World) :
  (forall found,
     fst (WahaClient.get_session_status rt session_name w) = Ok found ->
     exists b,
       fst (Routes.GET_sessions_connected rt session_name w)
       = Success 200 {[ py "connected" := VBool b ]}) /\
  (forall e,
     fst (WahaClient.get_session_status rt session_name w) = Raise e ->
     fst (Routes.GET_sessions_connected rt session_name w)
     = Failure 500 {[ py "detail" := VStr (exception_str rt e) ]}).
Proof.
  unfold Routes.GET_sessions_connected, serve, Routes.check_connection,
    try_except, SessionController.check_connection.
  unfold bind, ret.
  destruct (WahaClient.get_session_status rt session_name w)
    as [[found|e] w1]; cbn [fst]; split.
  - intros _ _. eexists. reflexivity.
  - discriminate.
  - discriminate.
  - intros e' [= <-]. reflexivity.
Qed.

Lemma check_connection_route_replies_witness :
  fst (Routes.GET_sessions_connected sample_runtime (py "s1")
         (sample_world unreachable))
  = Failure 500 {[ py "detail" := VStr (py "error") ]}.
Proof.
  apply (proj2 (check_connection_route_replies sample_runtime (py "s1")
                  (sample_world unreachable))
           (RequestError (py "connection refused"))).
  vm_compute. reflexivity.
Defined.

Lemma file_response_wire (result : Value) (chat_id : str) (w : World) :
  wire (snd (FileController.file_response result chat_id w)) = wire w.
Proof.
  unfold FileController.file_response, bind, lift.
  destruct (dict_get result (py "id") _); [|reflexivity].
  destruct (dict_get result (py "status") _); [|reflexivity].
  destruct (dict_get result (py "url") _); reflexivity.
Qed.

(** What [send_file] does with a path, by what the file holds. *)
Lemma send_file_path_unreadable (session_name chat_id : str) (p : Path)
  (x : option bytes) (file_url caption filename : option str) (w : World) :
  fs w !! path_str p = None ->
  WahaClient.send_file session_name chat_id (Some p) x file_url caption
    filename w = (Raise (open_error (path_str p)), ready w).
Proof.
  intros Hfs. unfold WahaClient.send_file.
  destruct (get_client_ready w) as [h E].
  rewrite try_except_reraise. unfold bind at 1. rewrite E.
  unfold bind at 1. unfold bind at 1, read_file.
  rewrite ready_fs, Hfs. reflexivity.
Qed.

Lemma send_file_path_empty (session_name chat_id : str) (p : Path)
  (x : option bytes) (caption filename : option str) (w : World) :
  fs w !! path_str p = Some [] ->
  WahaClient.send_file session_name chat_id (Some p) x None caption
    filename w = (Raise missing_source, ready w).
Proof.
  intros Hfs. unfold WahaClient.send_file.
  destruct (get_client_ready w) as [h E].
  rewrite try_except_reraise. unfold bind at 1. rewrite E.
  unfold bind at 1. unfold bind at 1, read_file.
  rewrite ready_fs, Hfs. reflexivity.
Qed.

(** The three ways [open] fails. *)
Lemma open_error_cases (name : str) :
  (forallb fs_encodable name = false ->
   open_error name = UnicodeEncodeError) /\
  (forallb fs_encodable name = true -> 0%N ∈ name ->
   open_error name = ValueError (py "embedded null byte")) /\
  (forallb fs_encodable name = true -> 0%N ∉ name ->
   open_error name = OSError name).
Proof.
  unfold open_error. split; [|split].
  - intros ->. reflexivity.
  - intros -> H0. cbn [negb]. rewrite bool_decide_eq_true_2 by exact H0.
    reflexivity.
  - intros -> H0. cbn [negb]. rewrite bool_decide_eq_false_2 by exact H0.
    reflexivity.
Qed.

(** X22. [send_file_from_path] reads the file before anything is sent.
    A path that cannot be read makes it raise what [open] raises, and no
    request goes out: [UnicodeEncodeError] for a name the file-system
    encoding cannot encode, else [ValueError] for a name with a NUL
    character, else [OSError].  An empty file makes it raise the
    missing-source [ValueError], again with no request.  For a non-empty
    file exactly one request goes out, multipart, whose file part carries
    the bytes of the file under the given file name, or under the name
    [file] when none is given: the name of the path is not used. *)
Theorem send_file_from_path_outcome (session_name chat_id : str) (p : Path)
  (caption filename : option str) (w : World) :
  (fs w !! path_str p = None ->
   exists e,
     FileController.send_file_from_path session_name chat_id p caption
       filename w = (Raise e, ready w) /\
     wire (ready w) = wire w /\
     (forallb fs_encodable (path_str p) = false ->
      e = UnicodeEncodeError) /\
     (forallb fs_encodable (path_str p) = true -> 0%N ∈ path_str p ->
      e = ValueError (py "embedded null byte")) /\
     (forallb fs_encodable (path_str p) = true -> 0%N ∉ path_str p ->
      e = OSError (path_str p))) /\
  (fs w !! path_str p = Some [] ->
   FileController.send_file_from_path session_name chat_id p caption
     filename w = (Raise missing_source, ready w)) /\
  (forall c, fs w !! path_str p = Some c -> c <> [] ->
   exists data,
     wire (snd (FileController.send_file_from_path session_name chat_id p
                  caption filename w))
     = wire w ++ [ {| method := POST;
                      url := send_file_url w session_name;
                      body := MultipartBody
                        {[ py "file" := (str_or filename (py "file"), c) ]}
                        data |} ]).
Proof.
  unfold FileController.send_file_from_path. split; [|split].
  - intros Hfs. exists (open_error (path_str p)). split; [|split].
    + unfold bind.
      rewrite (send_file_path_unreadable _ _ _ _ _ _ _ _ Hfs). reflexivity.
    + apply ready_wire.
    + apply open_error_cases.
  - intros Hfs. unfold bind.
    rewrite (send_file_path_empty _ _ _ _ _ _ _ Hfs). reflexivity.
  - intros c Hfs Hne.
    destruct (send_file_content_request session_name chat_id (Some p) None
                None caption filename w c Hfs Hne) as (data & Hw & _).
    exists data. rewrite bind_wire; [exact Hw|].
    intros a w1. apply file_response_wire.
Qed.

Lemma send_file_from_path_outcome_witness :
  fst (FileController.send_file_from_path (py "s1") (py "123")
         {| path_str := py "/nowhere" |} None None
         (sample_world (answers (json_response 200 sent_m1))))
  = Raise (OSError (py "/nowhere")) /\
  fst (FileController.send_file_from_path (py "s1") (py "123")
         {| path_str := [97%N; 0%N; 98%N] |} None None
         (sample_world (answers (json_response 200 sent_m1))))
  = Raise (ValueError (py "embedded null byte")) /\
  exists data,
    wire (snd (FileController.send_file_from_path (py "s1") (py "123")
                 {| path_str := py "/tmp/a.bin" |} None None
                 (sample_world (answers (json_response 200 sent_m1)))))
    = [ {| method := POST;
           url := py "http://localhost:3000/api/sessions/s1/send/file";
           body := MultipartBody {[ py "file" := (py "file", pyb "abc") ]}
                     data |} ].
Proof.
  split; [|split].
  - destruct (proj1 (send_file_from_path_outcome (py "s1") (py "123")
               {| path_str := py "/nowhere" |} None None
               (sample_world (answers (json_response 200 sent_m1))))
               eq_refl) as (e & Hrun & _ & _ & _ & Hos).
    rewrite Hrun. cbn [fst]. rewrite Hos; [reflexivity|reflexivity|].
    cbn [path_str]. intros H. vm_compute in H.
    repeat (apply elem_of_cons in H as [H|H]; [discriminate H|]).
    inversion H.
  - destruct (proj1 (send_file_from_path_outcome (py "s1") (py "123")
               {| path_str := [97%N; 0%N; 98%N] |} None None
               (sample_world (answers (json_response 200 sent_m1))))
               eq_refl) as (e & Hrun & _ & _ & Hnul & _).
    rewrite Hrun. cbn [fst]. rewrite Hnul; [reflexivity|reflexivity|].
    cbn [path_str]. apply list_elem_of_further, list_elem_of_here.
  - apply (proj2 (proj2 (send_file_from_path_outcome (py "s1") (py "123")
             {| path_str := py "/tmp/a.bin" |} None None
             (sample_world (answers (json_response 200 sent_m1)))))
             (pyb "abc")).
    + reflexivity.
    + discriminate.
Defined.
